(** * sequence.py: timers, sequences and commands

    A shallow embedding of [src/sequence.py] and the properties of its
    timing state machine, its daytime interval table, its command gate and
    its invocation wrapper.

    Conventions of the embedding.
    - Points in time, durations and times of day are integers counting
      milliseconds ([Z]), so 0.01 seconds is 10; the rounding of floating
      point numbers is outside the model.  Python's [%] is the remainder
      of floor division, with the sign of the divisor, which is
      [Z.modulo].
    - A method of a class is a computation in the monad [M S], where [S] is
      the type of the object the method is called on.  A computation
      threads the object and the world outside it (clocks, sleeping, the
      log, the store of list objects) and either returns or raises.
    - An attribute that is assigned only by some method is an [option]
      field: [None] is the absent attribute.
    - Where the behaviour of the interpreter matters the file follows
      CPython 3. *)

From Stdlib Require Import ZArith List Bool Lia String Sorted Permutation.
From stdpp Require Import base gmap list.
Import ListNotations.
Open Scope Z_scope.

(** ** Exceptions and results *)

Inductive exn : Type :=
| IndexError
| TypeError
| AttributeError
| ZeroDivisionError
| ValueError
| Failure (code : Z).   (* an exception of the wrapped callable's own *)

Inductive result (A : Type) : Type :=
| Ok (a : A)
| Raise (e : exn).
Arguments Ok {A} a.
Arguments Raise {A} e.

(** ** The world outside an object *)

Inductive log_record : Type :=
| INFO (msg : string)
| ERROR (msg : string).

(** List objects live in a store and are named by their location: two
    names for one location are two references to the same list.  A command
    list holds references to command objects. *)
Definition loc : Type := positive.
Definition cmd_ref : Type := nat.

Record World : Type := mkWorld {
  clock : nat -> Z;          (* the successive values of time.time() *)
  clock_reads : nat;         (* how many of them have been read *)
  daytime : nat -> Z;        (* the successive values of DayTime.daytime() *)
  daytime_reads : nat;
  slept : list Z;            (* the arguments of time.sleep, oldest first *)
  logged : list log_record;  (* the records sent to LOGGER, oldest first *)
  lists : gmap loc (list cmd_ref)
}.

Definition tick_clock (w : World) : World :=
  mkWorld (clock w) (S (clock_reads w)) (daytime w) (daytime_reads w)
          (slept w) (logged w) (lists w).

Definition tick_daytime (w : World) : World :=
  mkWorld (clock w) (clock_reads w) (daytime w) (S (daytime_reads w))
          (slept w) (logged w) (lists w).

Definition add_slept (x : Z) (w : World) : World :=
  mkWorld (clock w) (clock_reads w) (daytime w) (daytime_reads w)
          (slept w ++ [x]) (logged w) (lists w).

Definition add_logged (r : log_record) (w : World) : World :=
  mkWorld (clock w) (clock_reads w) (daytime w) (daytime_reads w)
          (slept w) (logged w ++ [r]) (lists w).

Definition set_lists (h : gmap loc (list cmd_ref)) (w : World) : World :=
  mkWorld (clock w) (clock_reads w) (daytime w) (daytime_reads w)
          (slept w) (logged w) h.

(** ** The monad of methods *)

Definition M (S A : Type) : Type := S -> World -> result A * S * World.

Definition ret {S A : Type} (a : A) : M S A :=
  fun s w => (Ok a, s, w).

Definition bind {S A B : Type} (m : M S A) (k : A -> M S B) : M S B :=
  fun s w =>
    match m s w with
    | (Ok a, s', w') => k a s' w'
    | (Raise e, s', w') => (Raise e, s', w')
    end.

Definition raise {S A : Type} (e : exn) : M S A :=
  fun s w => (Raise e, s, w).

Definition get {S A : Type} (f : S -> A) : M S A :=
  fun s w => (Ok (f s), s, w).

Definition modify {S : Type} (f : S -> S) : M S unit :=
  fun s w => (Ok tt, f s, w).

Declare Scope method_scope.
Delimit Scope method_scope with method.
Notation "x <- c1 ;; c2" := (bind c1 (fun x => c2))
  (at level 100, c1 at next level, right associativity) : method_scope.
Notation "c1 ;; c2" := (bind c1 (fun _ => c2))
  (at level 100, right associativity) : method_scope.
Open Scope method_scope.

(** A method of another object [o] called from a method of this one; the
    caller keeps no handle on what the call did to [o]. *)
Definition observe {S S' A : Type} (o : S') (m : M S' A) : M S A :=
  fun s w => let '(r, _, w') := m o w in (r, s, w').

(** [for x in l: body] *)
Fixpoint for_each {S A : Type} (l : list A) (body : A -> M S unit) : M S unit :=
  match l with
  | [] => ret tt
  | x :: l' => body x ;; for_each l' body
  end.

(** [[f(x) for x in l]] *)
Fixpoint comprehension {S A B : Type} (l : list A) (f : A -> M S B) : M S (list B) :=
  match l with
  | [] => ret []
  | x :: l' => y <- f x ;; ys <- comprehension l' f ;; ret (y :: ys)
  end.

(** time.time() *)
Definition time_time {S : Type} : M S Z :=
  fun s w => (Ok (clock w (clock_reads w)), s, tick_clock w).

(** DayTime.daytime(): the current time of day. *)
Definition DayTime_daytime {S : Type} : M S Z :=
  fun s w => (Ok (daytime w (daytime_reads w)), s, tick_daytime w).

(** time.sleep(x); a negative length is refused. *)
Definition time_sleep {S : Type} (x : Z) : M S unit :=
  fun s w => if x <? 0 then (Raise ValueError, s, w) else (Ok tt, s, add_slept x w).

Definition LOGGER_info {S : Type} (msg : string) : M S unit :=
  fun s w => (Ok tt, s, add_logged (INFO msg) w).

(** ** Values *)

(** What the attribute [_interval] of a timer can hold: a number, or the
    timer object itself, which is what [DaytimeTimer.__init__] passes as
    [interval] to [Timer.__init__]. *)
Inductive interval_value : Type :=
| Num (z : Z)
| Self.

(** bool(v): a number is true unless it is zero, an object is true. *)
Definition truthy (v : interval_value) : bool :=
  match v with
  | Num z => negb (z =? 0)
  | Self => true
  end.

(** The use of [v] as an operand of [-], [+], [%] or [<] with a number. *)
Definition number {S : Type} (v : interval_value) : M S Z :=
  match v with
  | Num z => ret z
  | Self => raise TypeError
  end.

(** The use of an attribute that may hold None as an operand. *)
Definition operand {S : Type} (v : option Z) : M S Z :=
  match v with
  | Some z => ret z
  | None => raise TypeError
  end.

(** [a % b] *)
Definition py_mod {S : Type} (a b : Z) : M S Z :=
  if b =? 0 then raise ZeroDivisionError else ret (a mod b).

(** [a is b] for the integer [a] a counter holds (0, or the result of a
    [+=]) and an optional integer [b] handed in by a caller.  CPython keeps one object for each
    integer from -5 to 256 and hands it out whenever a computation yields
    such a value; any other result of a computation is a new object.  So
    the two are the same object exactly when they are equal and in that
    range; None is no integer. *)
Definition small_int (z : Z) : bool := (-5 <=? z) && (z <=? 256).

Definition py_is (a : Z) (b : option Z) : bool :=
  match b with
  | Some z => (a =? z) && small_int a
  | None => false
  end.

(** [l.sort()] for a list of pairs: ascending in the first component, ties
    broken by the second. *)
Definition pair_leb (a b : Z * Z) : bool :=
  (fst a <? fst b) || ((fst a =? fst b) && (snd a <=? snd b)).

Fixpoint sort_insert (x : Z * Z) (l : list (Z * Z)) : list (Z * Z) :=
  match l with
  | [] => [x]
  | y :: l' => if pair_leb x y then x :: y :: l' else y :: sort_insert x l'
  end.

Fixpoint list_sort (l : list (Z * Z)) : list (Z * Z) :=
  match l with
  | [] => []
  | x :: l' => sort_insert x (list_sort l')
  end.

(** [l[0]] and [l[-1]] *)
Definition index_first {S A : Type} (l : list A) : M S A :=
  match l with
  | [] => raise IndexError
  | x :: _ => ret x
  end.

Definition index_last {S A : Type} (l : list A) : M S A :=
  match List.rev l with
  | [] => raise IndexError
  | x :: _ => ret x
  end.

(** ** class Timer *)

Module Timer.

Record obj : Type := mk {
  _interval : interval_value;
  _snap : bool;
  _max_count : option Z;
  _latency_tolerance : Z;
  _stage : option Z;
  _counter : Z;
  _timelag : option Z;
  _stopped : bool;
  _first_time : option bool;          (* assigned by start() only *)
  _data : option (list (Z * Z))       (* assigned by DaytimeTimer.__init__ only *)
}.

Definition set_interval (v : interval_value) (t : obj) : obj :=
  mk v (_snap t) (_max_count t) (_latency_tolerance t) (_stage t)
     (_counter t) (_timelag t) (_stopped t) (_first_time t) (_data t).

Definition set_stage (v : option Z) (t : obj) : obj :=
  mk (_interval t) (_snap t) (_max_count t) (_latency_tolerance t) v
     (_counter t) (_timelag t) (_stopped t) (_first_time t) (_data t).

Definition set_counter (v : Z) (t : obj) : obj :=
  mk (_interval t) (_snap t) (_max_count t) (_latency_tolerance t) (_stage t)
     v (_timelag t) (_stopped t) (_first_time t) (_data t).

Definition set_timelag (v : option Z) (t : obj) : obj :=
  mk (_interval t) (_snap t) (_max_count t) (_latency_tolerance t) (_stage t)
     (_counter t) v (_stopped t) (_first_time t) (_data t).

Definition set_stopped (v : bool) (t : obj) : obj :=
  mk (_interval t) (_snap t) (_max_count t) (_latency_tolerance t) (_stage t)
     (_counter t) (_timelag t) v (_first_time t) (_data t).

Definition set_first_time (v : bool) (t : obj) : obj :=
  mk (_interval t) (_snap t) (_max_count t) (_latency_tolerance t) (_stage t)
     (_counter t) (_timelag t) (_stopped t) (Some v) (_data t).

Definition set_data (v : list (Z * Z)) (t : obj) : obj :=
  mk (_interval t) (_snap t) (_max_count t) (_latency_tolerance t) (_stage t)
     (_counter t) (_timelag t) (_stopped t) (_first_time t) (Some v).

(** The constructor stores its arguments and raises nowhere.  A keyword
    argument left out is None here and takes its default:
    [max_count=None], [snap=False], [latency_tolerance=0.01]. *)
Definition __init__ (interval : interval_value) (max_count : option Z)
           (snap : option bool) (latency_tolerance : option Z) : result obj :=
  Ok (mk interval (default false snap) max_count (default 10 latency_tolerance)
         None 0 None false None None).

Definition counter (self : obj) : Z := _counter self.
Definition interval (self : obj) : interval_value := _interval self.
Definition timelag (self : obj) : option Z := _timelag self.

(** bool(self._stage): None and 0 are false. *)
Definition alive (self : obj) : bool :=
  match _stage self with
  | Some s => negb (s =? 0)
  | None => false
  end.

Definition runtime : M obj (option Z) :=
  a <- get alive ;;
  if a then
    now <- time_time ;;
    stage <- get _stage ;;
    s <- operand stage ;;
    ret (Some (now - s))
  else ret None.

(** The hook of the base class does nothing. *)
Definition actualize : M obj unit := ret tt.

Definition first_time : M obj bool :=
  ft <- get _first_time ;;
  match ft with
  | Some b => ret b
  | None => raise AttributeError
  end.

Definition reset : M obj unit :=
  modify (set_counter 0) ;;
  modify (set_stage None) ;;
  modify (set_stopped false).

Definition stop : M obj unit := modify (set_stopped true).

Definition run_check : M obj bool :=
  stopped <- get _stopped ;;
  (if stopped then reset else ret tt) ;;
  a <- get alive ;;
  if a then
    c <- get counter ;;
    m <- get _max_count ;;
    ret (negb (py_is c m))
  else ret false.

(** The methods that call [self.actualize()] take the method the call
    resolves to, which depends on the class of the object. *)
Section Hooked.
Variable self_actualize : M obj unit.

Definition start : M obj Z :=
  self_actualize ;;
  modify (set_first_time true) ;;
  snap <- get _snap ;;
  if negb snap then
    now <- time_time ;;
    modify (set_stage (Some now)) ;;
    ret 0
  else
    now <- time_time ;;
    i <- get interval ;;
    i_num <- number i ;;
    r <- py_mod now i_num ;;
    let seconds_to_wait := i_num - r in
    modify (set_stage (Some (now + seconds_to_wait))) ;;
    ret seconds_to_wait.

(** The result is None, False or True. *)
Definition check : M obj (option bool) :=
  a <- get alive ;;
  if negb a then ret None
  else
    i <- get interval ;;
    if negb (truthy i) then
      self_actualize ;;
      i' <- get interval ;;
      if truthy i' then
        wait <- start ;;
        time_sleep wait ;;
        ret None
      else ret (Some false)
    else
      ft <- first_time ;;
      if ft then
        c <- get _counter ;;
        modify (set_counter (c + 1)) ;;
        modify (set_first_time false) ;;
        ret (Some true)
      else
        now <- time_time ;;
        stage <- get _stage ;;
        s <- operand stage ;;
        i_num <- number i ;;
        if now - s <? i_num then ret (Some false)
        else
          rt <- runtime ;;
          r <- operand rt ;;
          let lag := r - i_num in
          tol <- get _latency_tolerance ;;
          modify (set_timelag (if lag <=? tol then None else Some lag)) ;;
          self_actualize ;;
          i' <- get interval ;;
          if negb (truthy i') then ret (Some false)
          else
            c <- get _counter ;;
            modify (set_counter (c + 1)) ;;
            stage' <- get _stage ;;
            s' <- operand stage' ;;
            i_num' <- number i' ;;
            modify (set_stage (Some (s' + i_num'))) ;;
            ret (Some true).
End Hooked.

End Timer.

(** ** class DaytimeTimer(Timer) *)

Module DaytimeTimer.

(** [self._data = data; self._data.sort()], then the constructor of the
    base class with the object itself in the place of [interval]. *)
Definition __init__ (data : list (Z * Z)) (max_count : option Z)
           (snap : option bool) (latency_tolerance : option Z) : result Timer.obj :=
  match Timer.__init__ Self max_count snap latency_tolerance with
  | Ok t => Ok (Timer.set_data (list_sort data) t)
  | Raise e => Raise e
  end.

Definition data : M Timer.obj (list (Z * Z)) :=
  d <- get Timer._data ;;
  match d with
  | Some l => ret l
  | None => raise AttributeError
  end.

Definition actualize : M Timer.obj unit :=
  now <- DayTime_daytime ;;
  d <- data ;;
  last <- index_last d ;;
  if now <? fst last then
    d0 <- data ;;
    first <- index_first d0 ;;
    modify (Timer.set_interval (Num (snd first)))
  else
    d1 <- data ;;
    for_each d1 (fun '(time, interval) =>
      if time <? now then modify (Timer.set_interval (Num interval))
      else ret tt).

Definition start : M Timer.obj Z := Timer.start actualize.
Definition check : M Timer.obj (option bool) := Timer.check actualize.

End DaytimeTimer.

(** [self.actualize()], [self.start()] and [self.check()] on a timer of
    either class: an object made by [DaytimeTimer.__init__] has the
    attribute [_data], an object made by [Timer.__init__] has not. *)
Definition timer_actualize : M Timer.obj unit :=
  fun self =>
    match Timer._data self with
    | Some _ => DaytimeTimer.actualize self
    | None => Timer.actualize self
    end.

Definition timer_start : M Timer.obj Z := Timer.start timer_actualize.
Definition timer_check : M Timer.obj (option bool) := Timer.check timer_actualize.

(** ** class Sequence *)

Module Sequence.

Record obj : Type := mk {
  timer : Timer.obj;
  cmds : loc;                  (* a reference to a list object *)
  _alive : option bool         (* assigned by go() only *)
}.

Definition set_timer (t : Timer.obj) (s : obj) : obj := mk t (cmds s) (_alive s).
Definition set_alive (b : bool) (s : obj) : obj := mk (timer s) (cmds s) (Some b).

(** The list object that [cmds=list()] evaluates to.  The expression is
    evaluated once, when the [def] statement is executed, and every call
    that leaves [cmds] out receives that one object. *)
Definition default_cmds : loc := 1%positive.

(** The store of list objects once the module has been loaded. *)
Definition loaded_lists : gmap loc (list cmd_ref) := {[ default_cmds := [] ]}.

Definition __init__ (timer : Timer.obj) (cmds : option loc) : result obj :=
  Ok (mk timer (default default_cmds cmds) None).

Definition alive : M obj bool :=
  a <- get _alive ;;
  match a with
  | Some b => ret b
  | None => raise AttributeError
  end.

(** [self.cmds.append(cmd)] changes the list object in the store. *)
Definition add_cmd (cmd : cmd_ref) : M obj unit :=
  fun s w => (Ok tt, s, set_lists (alter (fun l => l ++ [cmd]) (cmds s) (lists w)) w).

(** The list [self.cmds] refers to, as [for cmd in self.cmds] sees it. *)
Definition read_cmds : M obj (list cmd_ref) :=
  fun s w => (Ok (default [] (lists w !! cmds s)), s, w).

(** A method of [self.timer]. *)
Definition on_timer {A : Type} (m : M Timer.obj A) : M obj A :=
  fun s w => let '(r, t', w') := m (timer s) w in (r, set_timer t' s, w').

(** [while self.alive: time.sleep(0.01)].  Nothing in the loop changes
    [_alive]; it ends when another thread does, which is outside this
    model: the result is [true] when the loop was left and [false] when
    it was still waiting after [fuel] rounds. *)
Fixpoint wait_while_alive (fuel : nat) : M obj bool :=
  a <- alive ;;
  if a then
    match fuel with
    | O => ret false
    | S fuel' => time_sleep 10 ;; wait_while_alive fuel'
    end
  else ret true.

Definition stop (fuel : nat) (wait : bool) : M obj bool :=
  on_timer Timer.stop ;;
  if wait then wait_while_alive fuel else ret true.

(** The statements of [go()] before its loop (lines 271-272): the first
    assignment to [_alive]. *)
Definition go_enter : M obj unit :=
  wait <- on_timer timer_start ;;
  time_sleep wait ;;
  modify (set_alive true).

End Sequence.

(** ** class BaseCmd and class Cmd(BaseCmd) *)

(** A callable has a name and, called with positional and keyword
    arguments, acts on the world and returns a value or raises. *)
Record callable : Type := mkCallable {
  callable_name : string;
  callable_body : list Z -> list (string * Z) -> World -> result Z * World
}.

Definition call {S : Type} (f : callable) (args : list Z) (kwargs : list (string * Z)) : M S Z :=
  fun s w => let '(r, w') := callable_body f args kwargs w in (r, s, w').

Module BaseCmd.

(** The attributes that [Cmd.__init__] adds. *)
Record ext : Type := mkExt {
  _wait : Z;
  _stall : Z;
  _delay : Z;
  _nthtime : Z;
  _times : list Z
}.

Record obj : Type := mk {
  _cmd : callable;
  __name__ : string;
  _args : list Z;
  _kwargs : list (string * Z);
  _join : bool;
  _counter : Z;
  _ext : option ext       (* present on objects of class Cmd *)
}.

Definition set_counter (v : Z) (c : obj) : obj :=
  mk (_cmd c) (__name__ c) (_args c) (_kwargs c) (_join c) v (_ext c).

Definition set_ext (e : ext) (c : obj) : obj :=
  mk (_cmd c) (__name__ c) (_args c) (_kwargs c) (_join c) (_counter c) (Some e).

(** Defaults: [args=list()], [kwargs=dict()], [join=False]. *)
Definition __init__ (cmd : callable) (args : option (list Z))
           (kwargs : option (list (string * Z))) (join : option bool) : result obj :=
  Ok (mk cmd (callable_name cmd) (default [] args) (default [] kwargs)
         (default false join) 0 None).

Definition join (self : obj) : bool := _join self.
Definition args (self : obj) : list Z := _args self.
Definition kwargs (self : obj) : list (string * Z) := _kwargs self.
Definition counter (self : obj) : Z := _counter self.

Definition check (sequence : Sequence.obj) : M obj bool := ret true.
Definition preexec (sequence : Sequence.obj) : M obj Z := ret 0.
Definition postexec (sequence : Sequence.obj) : M obj Z := ret 0.

(** The invocation wrapper; [self.preexec] and [self.postexec] resolve by
    the class of the object. *)
Section Hooked.
Variables self_preexec self_postexec : Sequence.obj -> M obj Z.

Definition __call__ (sequence : Sequence.obj) (args : list Z)
           (kwargs : list (string * Z)) : M obj Z :=
  c <- get _counter ;;
  modify (set_counter (c + 1)) ;;
  pre <- self_preexec sequence ;;
  time_sleep pre ;;
  cmd <- get _cmd ;;
  LOGGER_info ("RUN " ++ callable_name cmd ++ ".")%string ;;
  rtn <- call cmd args kwargs ;;
  LOGGER_info ("DONE " ++ callable_name cmd ++ ".")%string ;;
  post <- self_postexec sequence ;;
  time_sleep post ;;
  ret rtn.
End Hooked.

End BaseCmd.

Module Cmd.

(** Defaults: [join=False], [args=list()], [kwargs=dict()], [wait=0],
    [stall=0], [delay=0], [nthtime=1], [times=list()]. *)
Definition __init__ (cmd : callable) (join : option bool) (args : option (list Z))
           (kwargs : option (list (string * Z))) (wait stall delay nthtime : option Z)
           (times : option (list Z)) : result BaseCmd.obj :=
  match BaseCmd.__init__ cmd args kwargs join with
  | Ok c =>
      Ok (BaseCmd.set_ext
            (BaseCmd.mkExt (default 0 wait) (default 0 stall) (default 0 delay)
                           (default 1 nthtime) (default [] times)) c)
  | Raise e => Raise e
  end.

Definition attr {A : Type} (f : BaseCmd.ext -> A) : M BaseCmd.obj A :=
  e <- get BaseCmd._ext ;;
  match e with
  | Some x => ret (f x)
  | None => raise AttributeError
  end.

(** [any(l)] *)
Definition any (l : list bool) : bool := existsb (fun b => b) l.

Definition _check_times (interval : interval_value) : M BaseCmd.obj bool :=
  times <- attr BaseCmd._times ;;
  match times with
  | [] => ret true
  | _ =>
      d <- DayTime_daytime ;;
      let i := interval in
      bs <- comprehension times (fun t =>
              if d >=? t then i_num <- number i ;; ret (d - t <? i_num)
              else ret false) ;;
      if any bs then ret true else ret false
  end.

Definition _check_nthtime (counter : Z) : M BaseCmd.obj bool :=
  n <- attr BaseCmd._nthtime ;;
  r <- py_mod counter n ;;
  ret (r =? 0).

Definition _check_delay (runtime : option Z) : M BaseCmd.obj Z :=
  d <- attr BaseCmd._delay ;;
  r <- operand runtime ;;
  let delay := d - r in
  ret (if delay >? 0 then delay else 0).

(** [a and b]: [b] is evaluated only when [a] is true. *)
Definition check (sequence : Sequence.obj) : M BaseCmd.obj bool :=
  a <- _check_times (Timer.interval (Sequence.timer sequence)) ;;
  if a then _check_nthtime (Timer.counter (Sequence.timer sequence))
  else ret false.

Definition preexec (sequence : Sequence.obj) : M BaseCmd.obj Z :=
  w <- attr BaseCmd._wait ;;
  rt <- observe (Sequence.timer sequence) Timer.runtime ;;
  d <- _check_delay rt ;;
  ret (w + d).

Definition postexec (sequence : Sequence.obj) : M BaseCmd.obj Z :=
  attr BaseCmd._stall.

Definition __call__ := BaseCmd.__call__ preexec postexec.

End Cmd.

(** [cmd(sequence, *args, **kwargs)] on a command of either class. *)
Definition cmd_call (sequence : Sequence.obj) (args : list Z)
           (kwargs : list (string * Z)) : M BaseCmd.obj Z :=
  fun self =>
    match BaseCmd._ext self with
    | Some _ => Cmd.__call__ sequence args kwargs self
    | None => BaseCmd.__call__ BaseCmd.preexec BaseCmd.postexec sequence args kwargs self
    end.

(** ** Running a method *)

Definition value_of {S A : Type} (x : result A * S * World) : result A := fst (fst x).
Definition object_of {S A : Type} (x : result A * S * World) : S := snd (fst x).
Definition world_of {S A : Type} (x : result A * S * World) : World := snd x.

(** A world in which nothing has happened since the module was loaded,
    with the given clocks. *)
Definition fresh_world (clock daytime : nat -> Z) : World :=
  mkWorld clock 0 daytime 0 [] [] Sequence.loaded_lists.

(** A clock that stands still. *)
Definition frozen (t : Z) : nat -> Z := fun _ => t.

(** hh:mm as a time of day, and a number of seconds. *)
Definition hm (h m : Z) : Z := (h * 60 + m) * 60000.
Definition seconds (s : Z) : Z := s * 1000.

(** ** The daytime table as a function *)

(** What the loop of [DaytimeTimer.actualize] leaves in [_interval]. *)
Definition scan (now : Z) (data : list (Z * Z)) (held : interval_value) : interval_value :=
  fold_left (fun acc '(time, interval) => if time <? now then Num interval else acc)
            data held.

(** What [DaytimeTimer.actualize] leaves in [_interval], for a table, a
    time of day and the value held before. *)
Definition resolve (data : list (Z * Z)) (now : Z) (held : interval_value)
  : result interval_value :=
  match List.rev data, data with
  | last :: _, first :: _ =>
      if now <? fst last then Ok (Num (snd first)) else Ok (scan now data held)
  | _, _ => Raise IndexError
  end.

(** The table of the worked example. *)
Definition example_table : list (Z * Z) :=
  [(hm 6 0, seconds 60); (hm 12 0, seconds 300); (hm 22 0, seconds 900)].

(** The interval of a new DaytimeTimer over [data] after one call of the
    hook at time of day [now]. *)
Definition interval_at (data : list (Z * Z)) (now : Z) : result interval_value :=
  match DaytimeTimer.__init__ data None None None with
  | Ok t =>
      match DaytimeTimer.actualize t (fresh_world (frozen 0) (frozen now)) with
      | (Ok _, t', _) => Ok (Timer.interval t')
      | (Raise e, _, _) => Raise e
      end
  | Raise e => Raise e
  end.

(** ** Scenarios *)

(** [n] calls of [check()] in a row. *)
Fixpoint checks (n : nat) : M Timer.obj unit :=
  match n with
  | O => ret tt
  | S n' => timer_check ;; checks n'
  end.

(** A clock that advances by [step] from one reading to the next. *)
Definition stepping (first step : Z) : nat -> Z :=
  fun k => first + step * Z.of_nat k.

(** [start()], [n] calls of [check()], then the counter and what
    [run_check()] answers. *)
Definition start_check_run_check (n : nat) : M Timer.obj (Z * bool) :=
  timer_start ;;
  checks n ;;
  c <- get Timer.counter ;;
  b <- Timer.run_check ;;
  ret (c, b).

(** What a program can call on a sequence without running [go()] and
    without blocking: [add_cmd(cmd)] and [stop()]. *)
Inductive idle_call : Type :=
| AddCmd (cmd : cmd_ref)
| StopNoWait.

Fixpoint idle_calls (l : list idle_call) : M Sequence.obj unit :=
  match l with
  | [] => ret tt
  | AddCmd cmd :: l' => Sequence.add_cmd cmd ;; idle_calls l'
  | StopNoWait :: l' => Sequence.stop 0 false ;; idle_calls l'
  end.

(** A callable that raises [e] whatever its arguments. *)
Definition failing (name : string) (e : exn) : callable :=
  mkCallable name (fun _ _ w => (Raise e, w)).

(** What is left of [check()] once the hook has returned. *)
Definition after_hook : M Timer.obj (option bool) :=
  i' <- get Timer.interval ;;
  if negb (truthy i') then ret (Some false)
  else
    c <- get Timer._counter ;;
    modify (Timer.set_counter (c + 1)) ;;
    stage' <- get Timer._stage ;;
    s' <- operand stage' ;;
    i_num' <- number i' ;;
    modify (Timer.set_stage (Some (s' + i_num'))) ;;
    ret (Some true).


(** A callable that does nothing and returns 0. *)
Definition noop (name : string) : callable :=
  mkCallable name (fun _ _ w => (Ok 0, w)).

(** A timer in its second pass, five seconds after it was started at
    time 5000, and a sequence over it that is running. *)
Definition running_timer (interval : Z) (counter : Z) : Timer.obj :=
  Timer.mk (Num interval) false None 10 (Some 5000) counter None false (Some false) None.

Definition running_sequence (interval : Z) (counter : Z) : Sequence.obj :=
  Sequence.mk (running_timer interval counter) Sequence.default_cmds (Some true).

(** What neither the hook nor [start()] assigns. *)
Definition same_settings (t t' : Timer.obj) : Prop :=
  Timer._counter t' = Timer._counter t /\
  Timer._max_count t' = Timer._max_count t /\
  Timer._stopped t' = Timer._stopped t /\
  Timer._timelag t' = Timer._timelag t /\
  Timer._snap t' = Timer._snap t /\
  Timer._latency_tolerance t' = Timer._latency_tolerance t /\
  Timer._data t' = Timer._data t.

(** The number a result of [check()] adds to the counter. *)
Definition counted (r : option bool) : Z :=
  match r with
  | Some true => 1
  | _ => 0
  end.

(** [for cmd in cs: sequence.add_cmd(cmd)] *)
Definition add_cmds (cs : list cmd_ref) : M Sequence.obj unit :=
  for_each cs Sequence.add_cmd.

(** The entry the loop of [DaytimeTimer.actualize] stops on: the last one
    of the table whose threshold is before [now]. *)
Definition last_before (now : Z) (data : list (Z * Z)) : option (Z * Z) :=
  List.find (fun p => fst p <? now) (rev data).

(** * Properties *)

(** ** The monad *)

Lemma bind_ok {S A B : Type} (m : M S A) (k : A -> M S B) s w a s' w' :
  m s w = (Ok a, s', w') -> bind m k s w = k a s' w'.
Proof. intros H. unfold bind. rewrite H. reflexivity. Qed.

Lemma bind_raise {S A B : Type} (m : M S A) (k : A -> M S B) s w e s' w' :
  m s w = (Raise e, s', w') -> bind m k s w = (Raise e, s', w').
Proof. intros H. unfold bind. rewrite H. reflexivity. Qed.

(** ** The daytime table *)






Lemma set_interval_same (t : Timer.obj) :
  Timer.set_interval (Timer._interval t) t = t.
Proof. destruct t; reflexivity. Qed.

Lemma set_interval_twice (v v' : interval_value) (t : Timer.obj) :
  Timer.set_interval v (Timer.set_interval v' t) = Timer.set_interval v t.
Proof. reflexivity. Qed.

(** The loop of the hook is [scan]. *)
Lemma for_each_scan (now : Z) (data : list (Z * Z)) (t : Timer.obj) (w : World) :
  for_each data (fun '(time, interval) =>
      if time <? now then modify (Timer.set_interval (Num interval)) else ret tt) t w
  = (Ok tt, Timer.set_interval (scan now data (Timer._interval t)) t, w).
Proof.
  revert t. induction data as [|[time interval] rest IH]; intros t; simpl.
  - rewrite set_interval_same. reflexivity.
  - unfold bind at 1. destruct (time <? now); simpl.
    + rewrite IH. simpl. reflexivity.
    + rewrite IH. reflexivity.
Qed.

(** The hook of a DaytimeTimer is [resolve] on its table. *)
Lemma actualize_resolve (t : Timer.obj) (w : World) (data : list (Z * Z)) :
  Timer._data t = Some data ->
  DaytimeTimer.actualize t w =
    match resolve data (daytime w (daytime_reads w)) (Timer._interval t) with
    | Ok v => (Ok tt, Timer.set_interval v t, tick_daytime w)
    | Raise e => (Raise e, t, tick_daytime w)
    end.
Proof.
  intros Hd. unfold DaytimeTimer.actualize, resolve, DaytimeTimer.data, index_last, index_first.
  unfold bind at 1. simpl.
  unfold bind at 1. unfold bind at 1. unfold get at 1. rewrite Hd. simpl.
  destruct (rev data) as [|last rl] eqn:Hrev.
  - unfold bind, raise. reflexivity.
  - destruct data as [|first rest]; [discriminate Hrev|].
    unfold bind at 1. simpl.
    destruct (daytime w (daytime_reads w) <? fst last).
    + unfold bind, get, ret, modify. rewrite Hd. reflexivity.
    + unfold bind at 1. unfold bind at 1. unfold get at 1. rewrite Hd. simpl.
      exact (for_each_scan (daytime w (daytime_reads w)) (first :: rest) t (tick_daytime w)).
Qed.

Lemma resolve_before_last (data : list (Z * Z)) (first last : Z * Z) (rest rl : list (Z * Z))
      (now : Z) (held : interval_value) :
  data = first :: rest -> rev data = last :: rl -> now < fst last ->
  resolve data now held = Ok (Num (snd first)).
Proof.
  intros -> Hrev Hlt. unfold resolve. rewrite Hrev.
  apply Z.ltb_lt in Hlt. rewrite Hlt. reflexivity.
Qed.

Lemma scan_last (now : Z) (data : list (Z * Z)) (last : Z * Z) (held : interval_value) :
  scan now (data ++ [last]) held
  = if fst last <? now then Num (snd last) else scan now data held.
Proof.
  unfold scan. rewrite fold_left_app. destruct last as [time interval]. reflexivity.
Qed.

(** Past the last threshold the hook sets the last entry's interval. *)
Lemma resolve_after_last (data : list (Z * Z)) (last : Z * Z) (now : Z)
      (held : interval_value) :
  fst last < now ->
  resolve (data ++ [last]) now held = Ok (Num (snd last)).
Proof.
  intros Hlt. unfold resolve. rewrite rev_app_distr. cbn [rev app].
  replace (now <? fst last) with false by (symmetry; apply Z.ltb_ge; lia).
  rewrite scan_last.
  replace (fst last <? now) with true by (symmetry; apply Z.ltb_lt; lia).
  destruct data; reflexivity.
Qed.

Lemma resolve_empty (now : Z) (held : interval_value) :
  resolve [] now held = Raise IndexError.
Proof. reflexivity. Qed.

(** C1: on the table [(06:00,60),(12:00,300),(22:00,900)] the hook sets
    the interval 60 at 08:00, 900 at 23:00 and 60 at 02:00, and at 14:00 it
    sets 60 as well, not the 300 of the greatest threshold not after 14:00:
    the hook compares the time of day with the last threshold of the table
    and takes the first entry's interval whenever that one lies ahead. *)
Theorem daytime_example_table :
  interval_at example_table (hm 8 0) = Ok (Num (seconds 60)) /\
  interval_at example_table (hm 14 0) = Ok (Num (seconds 60)) /\
  interval_at example_table (hm 23 0) = Ok (Num (seconds 900)) /\
  interval_at example_table (hm 2 0) = Ok (Num (seconds 60)).
Proof. repeat split; vm_compute; reflexivity. Qed.

(** Between the first and the last threshold of any table the hook sets
    the first entry's interval. *)
Lemma actualize_before_last_threshold (t : Timer.obj) (w : World)
      (first last : Z * Z) (rest rl : list (Z * Z)) :
  Timer._data t = Some (first :: rest) ->
  rev (first :: rest) = last :: rl ->
  daytime w (daytime_reads w) < fst last ->
  DaytimeTimer.actualize t w
  = (Ok tt, Timer.set_interval (Num (snd first)) t, tick_daytime w).
Proof.
  intros Hd Hrev Hlt. rewrite (actualize_resolve t w _ Hd).
  rewrite (resolve_before_last _ first last rest rl _ _ eq_refl Hrev Hlt).
  reflexivity.
Qed.

(** ** Construction *)

Lemma start_empty_table (t : Timer.obj) (w : World) :
  Timer._data t = Some [] ->
  DaytimeTimer.start t w = (Raise IndexError, t, tick_daytime w).
Proof.
  intros Hd. unfold DaytimeTimer.start, Timer.start.
  apply bind_raise. rewrite (actualize_resolve t w [] Hd). reflexivity.
Qed.



(** ** start() *)

Lemma timer_actualize_plain (t : Timer.obj) (w : World) :
  Timer._data t = None -> timer_actualize t w = (Ok tt, t, w).
Proof. intros Hd. unfold timer_actualize. rewrite Hd. reflexivity. Qed.

(** Unfolds the methods of a timer on an object given by its fields, and
    leaves the tests on numbers standing. *)
Ltac run_timer :=
  cbv beta iota zeta delta
    [bind ret raise get modify time_time number operand py_mod truthy
     Timer.start Timer.check Timer.runtime Timer.alive Timer.first_time
     Timer.run_check Timer.reset Timer.stop Timer.actualize
     Timer.interval Timer.counter Timer.timelag
     Timer.set_interval Timer.set_stage Timer.set_counter Timer.set_timelag
     Timer.set_stopped Timer.set_first_time Timer.set_data
     Timer._interval Timer._snap Timer._max_count Timer._latency_tolerance
     Timer._stage Timer._counter Timer._timelag Timer._stopped
     Timer._first_time Timer._data
     value_of object_of world_of fst snd negb].

Lemma start_no_snap (hook : M Timer.obj unit) (t t1 : Timer.obj) (w w1 : World) :
  hook t w = (Ok tt, t1, w1) ->
  Timer._snap t1 = false ->
  Timer.start hook t w
  = (Ok 0,
     Timer.set_stage (Some (clock w1 (clock_reads w1))) (Timer.set_first_time true t1),
     tick_clock w1).
Proof.
  intros Hh Hs. unfold Timer.start.
  rewrite (bind_ok _ _ _ _ _ _ _ Hh).
  destruct t1; cbn in Hs; subst. run_timer. reflexivity.
Qed.







(** ** check() *)

(** The hook of either class changes nothing but [_interval], and reads
    no clock but the time of day. *)
Lemma timer_actualize_frame (t t' : Timer.obj) (w w' : World) (r : result unit) :
  timer_actualize t w = (r, t', w') ->
  (exists v, t' = Timer.set_interval v t) /\
  clock w' = clock w /\ clock_reads w' = clock_reads w /\
  (Timer._data t = None -> r = Ok tt /\ t' = t /\ w' = w).
Proof.
  unfold timer_actualize. destruct (Timer._data t) as [data|] eqn:Hd.
  - rewrite (actualize_resolve t w data Hd).
    destruct (resolve data _ _) as [v|e]; intros [= <- <- <-].
    + split; [eexists; reflexivity|]. repeat split; discriminate.
    + split; [exists (Timer._interval t); symmetry; apply set_interval_same|].
      repeat split; discriminate.
  - intros [= <- <- <-].
    split; [exists (Timer._interval t); symmetry; apply set_interval_same|].
    repeat split.
Qed.

(** A timer that is not alive is not checked. *)
Lemma check_not_alive (hook : M Timer.obj unit) (t : Timer.obj) (w : World) :
  Timer.alive t = false -> Timer.check hook t w = (Ok None, t, w).
Proof.
  intros Ha. unfold Timer.check, bind, get. rewrite Ha. reflexivity.
Qed.

(** The first call after [start()] is a tick whatever the clock shows. *)
Lemma check_first_time (hook : M Timer.obj unit) (t : Timer.obj) (w : World) :
  Timer.alive t = true ->
  truthy (Timer.interval t) = true ->
  Timer._first_time t = Some true ->
  Timer.check hook t w
  = (Ok (Some true),
     Timer.set_first_time false (Timer.set_counter (Timer._counter t + 1) t), w).
Proof.
  intros Ha Hi Hf.
  destruct t as [i sn mc tol st c tl sp ft d]; cbn in Hf; subst.
  unfold Timer.alive in Ha; cbn in Ha. unfold Timer.interval in Hi; cbn in Hi.
  destruct st as [s|]; [|discriminate].
  destruct i as [z|]; run_timer.
  - destruct (s =? 0); [discriminate|]. cbn in Hi.
    destruct (z =? 0); [discriminate|]. reflexivity.
  - destruct (s =? 0); [discriminate|]. reflexivity.
Qed.

(** The pass still lasts. *)
Lemma check_no_tick (hook : M Timer.obj unit) (t : Timer.obj) (w : World) (s I : Z) :
  Timer._stage t = Some s -> s <> 0 ->
  Timer._first_time t = Some false ->
  Timer._interval t = Num I -> I <> 0 ->
  clock w (clock_reads w) - s < I ->
  Timer.check hook t w = (Ok (Some false), t, tick_clock w).
Proof.
  intros Hs Hs0 Hf Hi HI Hlt.
  destruct t; cbn in Hs, Hf, Hi; subst. run_timer.
  apply Z.eqb_neq in Hs0, HI. apply Z.ltb_lt in Hlt.
  rewrite Hs0, HI. cbn. rewrite Hlt. reflexivity.
Qed.

(** The interval has run down: the lag is taken from a second reading of
    the clock, then the hook is called. *)
Lemma check_evaluation (hook : M Timer.obj unit) (t : Timer.obj) (w : World) (s I : Z) :
  Timer._stage t = Some s -> s <> 0 ->
  Timer._first_time t = Some false ->
  Timer._interval t = Num I -> I <> 0 ->
  I <= clock w (clock_reads w) - s ->
  Timer.check hook t w
  = let lag := clock w (S (clock_reads w)) - s - I in
    let t1 := Timer.set_timelag
                (if lag <=? Timer._latency_tolerance t then None else Some lag) t in
    (hook ;; after_hook) t1 (tick_clock (tick_clock w)).
Proof.
  intros Hs Hs0 Hf Hi HI Hge.
  destruct t; cbn in Hs, Hf, Hi; subst. unfold after_hook. run_timer.
  apply Z.eqb_neq in Hs0, HI. apply Z.ltb_ge in Hge.
  repeat (progress (cbn; rewrite ?Hs0, ?HI, ?Hge)). reflexivity.
Qed.

(** The end of [check()] by the interval the hook has left. *)
Lemma after_hook_cases (t : Timer.obj) (w : World) :
  match Timer.interval t with
  | Num z =>
      if z =? 0 then after_hook t w = (Ok (Some false), t, w)
      else
        match Timer._stage t with
        | Some s =>
            after_hook t w
            = (Ok (Some true),
               Timer.set_stage (Some (s + z)) (Timer.set_counter (Timer._counter t + 1) t),
               w)
        | None =>
            after_hook t w
            = (Raise TypeError, Timer.set_counter (Timer._counter t + 1) t, w)
        end
  | Self =>
      after_hook t w = (Raise TypeError, Timer.set_counter (Timer._counter t + 1) t, w)
  end.
Proof.
  destruct t as [i sn mc tol st c tl sp ft d]. unfold after_hook.
  destruct i as [z|]; run_timer.
  - destruct (z =? 0); [reflexivity|]. destruct st; reflexivity.
  - destruct st; reflexivity.
Qed.






(** ** run_check() *)

(** The identity test is equality on the integers CPython shares. *)
Lemma py_is_small (c n : Z) : -5 <= n <= 256 -> py_is c (Some n) = (c =? n).
Proof.
  intros Hn. unfold py_is, small_int.
  destruct (c =? n) eqn:Hc; [|reflexivity].
  apply Z.eqb_eq in Hc. subst c.
  replace (-5 <=? n) with true by (symmetry; apply Z.leb_le; lia).
  replace (n <=? 256) with true by (symmetry; apply Z.leb_le; lia).
  reflexivity.
Qed.

Lemma py_is_large (c n : Z) : 256 < n -> py_is c (Some n) = false.
Proof.
  intros Hn. unfold py_is, small_int.
  destruct (c =? n) eqn:Hc; [|reflexivity].
  apply Z.eqb_eq in Hc. subst c.
  replace (n <=? 256) with false by (symmetry; apply Z.leb_gt; lia).
  rewrite andb_false_r. reflexivity.
Qed.

Lemma run_check_running (t : Timer.obj) (w : World) :
  Timer._stopped t = false ->
  Timer.run_check t w
  = (Ok (Timer.alive t && negb (py_is (Timer.counter t) (Timer._max_count t))), t, w).
Proof.
  intros Hs. destruct t as [i sn mc tol st c tl sp ft d]; cbn in Hs; subst.
  unfold Timer.run_check, bind, get, ret. cbn.
  destruct (Timer.alive _); reflexivity.
Qed.

Lemma run_check_stopped (t : Timer.obj) (w : World) :
  Timer._stopped t = true ->
  Timer.run_check t w
  = (Ok false,
     Timer.set_stopped false (Timer.set_stage None (Timer.set_counter 0 t)), w).
Proof.
  intros Hs. destruct t as [i sn mc tol st c tl sp ft d]; cbn in Hs; subst.
  reflexivity.
Qed.

(** With a maximum from 1 to 256, and the counter not beyond it,
    [run_check()] of a timer that is alive and was not stopped answers
    whether the counter is still below the maximum. *)
Lemma run_check_below_257 (t : Timer.obj) (w : World) (n : Z) :
  Timer._stopped t = false -> Timer.alive t = true ->
  Timer._max_count t = Some n -> 1 <= n <= 256 ->
  Timer.counter t <= n ->
  value_of (Timer.run_check t w) = Ok (Timer.counter t <? n).
Proof.
  intros Hs Ha Hm Hn Hc. rewrite (run_check_running t w Hs). cbn.
  rewrite Ha, Hm, py_is_small by lia. cbn. f_equal.
  destruct (Timer.counter t =? n) eqn:He.
  - apply Z.eqb_eq in He. symmetry. apply Z.ltb_ge. lia.
  - apply Z.eqb_neq in He. symmetry. apply Z.ltb_lt. lia.
Qed.

(** With a maximum above 256 [run_check()] of a timer that is alive and
    was not stopped never answers false. *)
Lemma run_check_above_256 (t : Timer.obj) (w : World) (n : Z) :
  Timer._stopped t = false -> Timer.alive t = true ->
  Timer._max_count t = Some n -> 256 < n ->
  value_of (Timer.run_check t w) = Ok true.
Proof.
  intros Hs Ha Hm Hn. rewrite (run_check_running t w Hs). cbn.
  rewrite Ha, Hm, py_is_large by lia. reflexivity.
Qed.

(** C3, what the code does: a timer with an interval of one second and
    [max_count=257], started and checked 257 times one second apart, has
    counted 257 ticks and [run_check()] still answers true, because the
    counter is compared with the maximum by [is]; and a timer with
    [max_count=1] that is checked twice has counted 2 ticks, past the
    maximum, and [run_check()] answers true as well.  With [max_count=3]
    the answer after three ticks is false. *)
Theorem run_check_at_max_count :
  (exists t, Timer.__init__ (Num (seconds 1)) (Some 257) None None = Ok t /\
             value_of (start_check_run_check 257 t
                         (fresh_world (stepping 5000 (seconds 1)) (frozen 0)))
             = Ok (257, true)) /\
  (exists t, Timer.__init__ (Num (seconds 1)) (Some 1) None None = Ok t /\
             value_of (start_check_run_check 2 t
                         (fresh_world (stepping 5000 (seconds 1)) (frozen 0)))
             = Ok (2, true)) /\
  (exists t, Timer.__init__ (Num (seconds 1)) (Some 3) None None = Ok t /\
             value_of (start_check_run_check 3 t
                         (fresh_world (stepping 5000 (seconds 1)) (frozen 0)))
             = Ok (3, false)).
Proof.
  repeat split; eexists; (split; [reflexivity|]); vm_compute; reflexivity.
Qed.

(** ** Sequences *)

(** C9, what the code does: two sequences constructed without a command
    list hold the same list object, so a command added to the first is in
    the command list of the second. *)
Theorem default_command_list_shared (t1 t2 : Timer.obj) (cmd : cmd_ref)
        (clk day : nat -> Z) :
  exists s1 s2,
    Sequence.__init__ t1 None = Ok s1 /\
    Sequence.__init__ t2 None = Ok s2 /\
    Sequence.cmds s1 = Sequence.cmds s2 /\
    value_of (Sequence.read_cmds s2 (fresh_world clk day)) = Ok [] /\
    value_of (Sequence.read_cmds s2
                (world_of (Sequence.add_cmd cmd s1 (fresh_world clk day))))
    = Ok [cmd].
Proof.
  eexists. eexists. repeat split.
Qed.


(** Nothing that can be called before [go()] assigns [_alive]. *)
Lemma idle_calls_alive (calls : list idle_call) (s : Sequence.obj) (w : World) :
  Sequence._alive s = None ->
  value_of (idle_calls calls s w) = Ok tt /\
  Sequence._alive (object_of (idle_calls calls s w)) = None.
Proof.
  revert s w. induction calls as [|c calls IH]; intros s w Hs.
  - split; [reflexivity|exact Hs].
  - destruct c as [cmd|]; cbn [idle_calls]; unfold bind.
    + cbn. apply IH. exact Hs.
    + cbn. apply IH. exact Hs.
Qed.

Lemma wait_while_alive_absent (fuel : nat) (s : Sequence.obj) (w : World) :
  Sequence._alive s = None ->
  Sequence.wait_while_alive fuel s w = (Raise AttributeError, s, w).
Proof.
  intros Hs. destruct fuel; cbn; unfold bind, Sequence.alive, bind, get; rewrite Hs;
    reflexivity.
Qed.

(** [go()] assigns [_alive] once the timer has started. *)
Lemma alive_after_go_enter (s s' : Sequence.obj) (w w' : World) :
  Sequence.go_enter s w = (Ok tt, s', w') ->
  value_of (Sequence.alive s' w') = Ok true.
Proof.
  unfold Sequence.go_enter, bind.
  destruct (Sequence.on_timer timer_start s w) as [[[wait|e] s1] w1]; [|discriminate].
  destruct (time_sleep wait s1 w1) as [[[[]|e] s2] w2]; [|discriminate].
  unfold modify. intros [= <- <-]. reflexivity.
Qed.

(** C10: on a sequence that was constructed and on which [go()] has not
    run, whatever was added to it and however often it was told to stop
    without waiting, reading [alive] raises an attribute error, and
    [stop(wait=True)] raises it too instead of returning. *)
Theorem alive_before_go_raises (timer : Timer.obj) (cmds : option loc)
        (calls : list idle_call) (w : World) (fuel : nat) :
  exists s0,
    Sequence.__init__ timer cmds = Ok s0 /\
    value_of (idle_calls calls s0 w) = Ok tt /\
    value_of (Sequence.alive (object_of (idle_calls calls s0 w))
                             (world_of (idle_calls calls s0 w)))
    = Raise AttributeError /\
    value_of (Sequence.stop fuel true (object_of (idle_calls calls s0 w))
                            (world_of (idle_calls calls s0 w)))
    = Raise AttributeError.
Proof.
  eexists. split; [reflexivity|].
  set (s0 := Sequence.mk _ _ _).
  destruct (idle_calls_alive calls s0 w eq_refl) as [Hv Ha].
  split; [exact Hv|].
  set (s := object_of _) in *. set (w1 := world_of _).
  split.
  - unfold Sequence.alive, bind, get. rewrite Ha. reflexivity.
  - unfold Sequence.stop, bind. cbn.
    rewrite wait_while_alive_absent by exact Ha. reflexivity.
Qed.

(** ** The gate of a command *)

(** The windows of a command, one test for each configured time. *)
Lemma window_tests (times : list Z) (d I : Z) (c : BaseCmd.obj) (w : World) :
  comprehension times
    (fun t => if d >=? t then i_num <- number (Num I) ;; ret (d - t <? i_num)
              else ret false) c w
  = (Ok (map (fun t => (d >=? t) && (d - t <? I)) times), c, w).
Proof.
  induction times as [|t times IH]; [reflexivity|].
  cbn [comprehension map].
  erewrite bind_ok; [erewrite bind_ok; [reflexivity|exact IH]|].
  destruct (d >=? t); reflexivity.
Qed.

Lemma any_map {A : Type} (f : A -> bool) (l : list A) :
  Cmd.any (map f l) = existsb f l.
Proof.
  induction l as [|x l IH]; [reflexivity|].
  cbn. f_equal. exact IH.
Qed.

Lemma attr_value {A : Type} (f : BaseCmd.ext -> A) (c : BaseCmd.obj) (e : BaseCmd.ext)
      (w : World) :
  BaseCmd._ext c = Some e -> Cmd.attr f c w = (Ok (f e), c, w).
Proof. intros He. unfold Cmd.attr, bind, get. rewrite He. reflexivity. Qed.

Lemma check_times_value (c : BaseCmd.obj) (e : BaseCmd.ext) (I : Z) (w : World) :
  BaseCmd._ext c = Some e ->
  value_of (Cmd._check_times (Num I) c w)
  = Ok (match BaseCmd._times e with
        | [] => true
        | _ => existsb (fun t => (daytime w (daytime_reads w) >=? t)
                                 && (daytime w (daytime_reads w) - t <? I))
                       (BaseCmd._times e)
        end)
  /\ object_of (Cmd._check_times (Num I) c w) = c.
Proof.
  intros He. unfold Cmd._check_times.
  rewrite (bind_ok _ _ _ _ _ _ _ (attr_value BaseCmd._times c e w He)).
  destruct (BaseCmd._times e) as [|t times] eqn:Ht; [split; reflexivity|].
  erewrite bind_ok; [|reflexivity].
  erewrite bind_ok; [|apply window_tests].
  rewrite any_map.
  destruct (existsb _ _); split; reflexivity.
Qed.

Lemma check_nthtime_value (c : BaseCmd.obj) (e : BaseCmd.ext) (counter : Z) (w : World) :
  BaseCmd._ext c = Some e -> BaseCmd._nthtime e <> 0 ->
  Cmd._check_nthtime counter c w = (Ok (counter mod BaseCmd._nthtime e =? 0), c, w).
Proof.
  intros He Hn. unfold Cmd._check_nthtime.
  rewrite (bind_ok _ _ _ _ _ _ _ (attr_value BaseCmd._nthtime c e w He)).
  unfold bind, py_mod. apply Z.eqb_neq in Hn. rewrite Hn. reflexivity.
Qed.

(** A pass number that is no multiple of zero cannot be tested. *)
Lemma check_nthtime_zero (c : BaseCmd.obj) (e : BaseCmd.ext) (counter : Z) (w : World) :
  BaseCmd._ext c = Some e -> BaseCmd._nthtime e = 0 ->
  Cmd._check_nthtime counter c w = (Raise ZeroDivisionError, c, w).
Proof.
  intros He Hn. unfold Cmd._check_nthtime.
  rewrite (bind_ok _ _ _ _ _ _ _ (attr_value BaseCmd._nthtime c e w He)).
  unfold bind, py_mod. rewrite Hn. reflexivity.
Qed.

(** C7: the gate of an extended command accepts a pass iff the pass
    counter is a multiple of [nthtime] and either no times are configured
    or the time of day d is, for one of the configured times t, at or
    after t and less than an interval after it; [nthtime] is 1 when it is
    left out, which every counter is a multiple of. *)
Theorem gate_accepts_iff (c : BaseCmd.obj) (e : BaseCmd.ext) (sequence : Sequence.obj)
        (w : World) (I : Z) :
  BaseCmd._ext c = Some e ->
  Timer.interval (Sequence.timer sequence) = Num I ->
  BaseCmd._nthtime e <> 0 ->
  let d := daytime w (daytime_reads w) in
  let counter := Timer.counter (Sequence.timer sequence) in
  (exists b, value_of (Cmd.check sequence c w) = Ok b) /\
  (value_of (Cmd.check sequence c w) = Ok true <->
   counter mod BaseCmd._nthtime e = 0 /\
   (BaseCmd._times e = [] \/
    exists t, In t (BaseCmd._times e) /\ d >= t /\ d - t < I)) /\
  (forall cmd join args kwargs wait stall delay times,
      exists c0 e0,
        Cmd.__init__ cmd join args kwargs wait stall delay None times = Ok c0 /\
        BaseCmd._ext c0 = Some e0 /\ BaseCmd._nthtime e0 = 1 /\
        forall k, k mod BaseCmd._nthtime e0 = 0).
Proof.
  intros He Hi Hn d counter.
  assert (value_of (Cmd.check sequence c w)
          = Ok (match BaseCmd._times e with
                | [] => true
                | _ => existsb (fun t => (d >=? t) && (d - t <? I)) (BaseCmd._times e)
                end && (counter mod BaseCmd._nthtime e =? 0))) as Hv.
  { unfold Cmd.check. rewrite Hi.
    destruct (check_times_value c e I w He) as [Hv Ho].
    unfold bind.
    destruct (Cmd._check_times (Num I) c w) as [[r c'] w'].
    cbn in Hv, Ho. subst r c'.
    fold d. set (a := match BaseCmd._times e with [] => true | _ => _ end).
    destruct a; [|reflexivity].
    rewrite (check_nthtime_value c e _ w' He Hn). reflexivity. }
  split; [eexists; exact Hv|]. split.
  - rewrite Hv. split.
    + intros [= Hb]. apply andb_true_iff in Hb as [Ht Hc].
      split; [apply Z.eqb_eq; exact Hc|].
      destruct (BaseCmd._times e) as [|t times]; [left; reflexivity|right].
      apply existsb_exists in Ht as (x & Hin & Hx).
      apply andb_true_iff in Hx as [Hge Hlt].
      exists x. split; [exact Hin|].
      split; [apply Z.geb_le in Hge; lia|apply Z.ltb_lt; exact Hlt].
    + intros [Hc Ht]. f_equal. apply andb_true_iff. split.
      * destruct Ht as [->|(x & Hin & Hge & Hlt)]; [reflexivity|].
        destruct (BaseCmd._times e) as [|t times] eqn:Hts; [reflexivity|].
        apply existsb_exists. exists x. split; [exact Hin|].
        apply andb_true_iff. split; [apply Z.geb_le; lia|apply Z.ltb_lt; exact Hlt].
      * apply Z.eqb_eq. exact Hc.
  - intros. eexists. eexists. split; [reflexivity|]. split; [reflexivity|].
    split; [reflexivity|]. intros k. apply Z.mod_1_r.
Qed.

Lemma gate_accepts_iff_witness :
  let e := BaseCmd.mkExt 0 0 0 2 [hm 12 0] in
  let c := BaseCmd.mk (noop "job") "job" [] [] false 0 (Some e) in
  let w := fresh_world (frozen 0) (frozen (hm 12 0 + seconds 30)) in
  value_of (Cmd.check (running_sequence (seconds 60) 4) c w) = Ok true <->
  4 mod 2 = 0 /\
  ([hm 12 0] = [] \/
   exists t, In t [hm 12 0] /\ hm 12 0 + seconds 30 >= t /\ hm 12 0 + seconds 30 - t < seconds 60).
Proof.
  intros e c w.
  pose proof (gate_accepts_iff c e (running_sequence (seconds 60) 4) w (seconds 60)
                eq_refl eq_refl ltac:(cbn; lia)) as H.
  cbv zeta in H. destruct H as (_ & H & _). exact H.
Defined.

(** ** The invocation wrapper *)

(** C2, as the code has it: the wrapper has no handler.  When the wrapped
    callable raises, the call of the wrapper raises the same failure: the
    invocation counter was incremented, the time of [preexec] slept and
    the run logged, and after the failure the wrapper logs nothing (no
    error, no "DONE"), does not call [postexec] and does not sleep. *)
Theorem wrapper_propagates_failure
        (pre post : Sequence.obj -> M BaseCmd.obj Z) (sequence : Sequence.obj)
        (args : list Z) (kwargs : list (string * Z))
        (c c1 : BaseCmd.obj) (w w1 w2 : World) (p : Z) (e : exn) :
  pre sequence (BaseCmd.set_counter (BaseCmd._counter c + 1) c) w = (Ok p, c1, w1) ->
  0 <= p ->
  callable_body (BaseCmd._cmd c1) args kwargs
    (add_logged (INFO ("RUN " ++ callable_name (BaseCmd._cmd c1) ++ ".")%string)
                (add_slept p w1))
  = (Raise e, w2) ->
  BaseCmd.__call__ pre post sequence args kwargs c w = (Raise e, c1, w2).
Proof.
  intros Hpre Hp Hcall. unfold BaseCmd.__call__.
  erewrite bind_ok; [|reflexivity].
  erewrite bind_ok; [|reflexivity].
  erewrite bind_ok; [|exact Hpre].
  erewrite bind_ok; [|unfold time_sleep; apply Z.ltb_ge in Hp; rewrite Hp; reflexivity].
  erewrite bind_ok; [|reflexivity].
  erewrite bind_ok; [|reflexivity].
  apply bind_raise. unfold call. rewrite Hcall. reflexivity.
Qed.

Lemma wrapper_propagates_failure_witness :
  let c := BaseCmd.mk (failing "job" (Failure 7)) "job" [] [] false 0 None in
  let w := fresh_world (frozen 5000) (frozen 0) in
  BaseCmd.__call__ BaseCmd.preexec BaseCmd.postexec (running_sequence (seconds 1) 1) [] [] c w
  = (Raise (Failure 7), BaseCmd.set_counter 1 c,
     add_logged (INFO "RUN job.") (add_slept 0 w)).
Proof.
  intros c w.
  apply (wrapper_propagates_failure BaseCmd.preexec BaseCmd.postexec
           (running_sequence (seconds 1) 1) [] [] c (BaseCmd.set_counter 1 c) w w _ 0
           (Failure 7)).
  - reflexivity.
  - lia.
  - reflexivity.
Defined.

(** C2 fails as stated: a command made from a callable that raises is
    called through its wrapper; the call raises the callable's failure,
    and the log holds the run record and no error. *)
Lemma wrapper_raises :
  exists c,
    BaseCmd.__init__ (failing "job" (Failure 7)) None None None = Ok c /\
    value_of (cmd_call (running_sequence (seconds 1) 1) [] [] c
                (fresh_world (frozen 5000) (frozen 0)))
    = Raise (Failure 7) /\
    logged (world_of (cmd_call (running_sequence (seconds 1) 1) [] [] c
                        (fresh_world (frozen 5000) (frozen 0))))
    = [INFO "RUN job."].
Proof.
  eexists. split; [reflexivity|]. split; vm_compute; reflexivity.
Qed.

(** * Further properties of the timer *)

(** X6: without snap, [start()] of a timer of the base class returns 0 and
    reads the clock once; when the interval is not zero and the clock does
    not show 0, the first [check()] after it reports a tick without
    reading the clock: the counter is one more, the stage is the time of
    the start. *)
Theorem start_then_first_check (t : Timer.obj) (w : World) :
  Timer._data t = None ->
  Timer._snap t = false ->
  truthy (Timer.interval t) = true ->
  clock w (clock_reads w) <> 0 ->
  let r := (wait <- timer_start ;; tick <- timer_check ;; ret (wait, tick)) t w in
  value_of r = Ok (0, Some true) /\
  Timer._stage (object_of r) = Some (clock w (clock_reads w)) /\
  Timer.counter (object_of r) = Timer.counter t + 1 /\
  Timer._first_time (object_of r) = Some false /\
  world_of r = tick_clock w.
Proof.
  intros Hd Hs Hi Hnow r. unfold r, timer_start, timer_check.
  rewrite (bind_ok _ _ _ _ _ _ _
             (start_no_snap _ t t w w (timer_actualize_plain t w Hd) Hs)).
  erewrite bind_ok.
  2:{ apply check_first_time.
      - unfold Timer.alive. cbn. apply Z.eqb_neq in Hnow. rewrite Hnow. reflexivity.
      - exact Hi.
      - reflexivity. }
  repeat split.
Qed.

Lemma start_then_first_check_witness :
  let t := Timer.mk (Num 1000) false None 10 None 0 None false None None in
  let w := fresh_world (frozen 5000) (frozen 0) in
  value_of ((wait <- timer_start ;; tick <- timer_check ;; ret (wait, tick)) t w)
  = Ok (0, Some true).
Proof.
  intros t w.
  assert (clock w (clock_reads w) <> 0) as Hnow by (intro H; vm_compute in H; discriminate H).
  exact (proj1 (start_then_first_check t w eq_refl eq_refl eq_refl Hnow)).
Defined.

(** X7: a timer that is not alive (never started, reset, or with the stage 0)
    is inert: [check()] returns None and [runtime] is None, neither reads
    the clock nor changes the timer, and [run_check()] of a timer that was
    not stopped answers false. *)
Theorem not_alive_is_inert (t : Timer.obj) (w : World) :
  Timer.alive t = false ->
  timer_check t w = (Ok None, t, w) /\
  Timer.runtime t w = (Ok None, t, w) /\
  (Timer._stopped t = false -> Timer.run_check t w = (Ok false, t, w)).
Proof.
  intros Ha. split; [apply check_not_alive; exact Ha|]. split.
  - unfold Timer.runtime, bind, get. rewrite Ha. reflexivity.
  - intros Hs. rewrite (run_check_running t w Hs), Ha. reflexivity.
Qed.

Lemma not_alive_is_inert_witness :
  let t := Timer.mk (Num 1000) false None 10 None 0 None false None None in
  timer_check t (fresh_world (frozen 5000) (frozen 0))
  = (Ok None, t, fresh_world (frozen 5000) (frozen 0)).
Proof.
  intros t.
  exact (proj1 (not_alive_is_inert t (fresh_world (frozen 5000) (frozen 0)) eq_refl)).
Defined.

(** X8: while the pass lasts, [check()] answers False after one reading of
    the clock and leaves the timer as it was: counter, stage and also
    [timelag] are kept. *)
Theorem check_while_pass_lasts (t : Timer.obj) (w : World) (s I : Z) :
  Timer._stage t = Some s -> s <> 0 ->
  Timer._first_time t = Some false ->
  Timer.interval t = Num I -> I <> 0 ->
  clock w (clock_reads w) - s < I ->
  timer_check t w = (Ok (Some false), t, tick_clock w).
Proof.
  intros Hs Hs0 Hf Hi HI Hlt. exact (check_no_tick _ t w s I Hs Hs0 Hf Hi HI Hlt).
Qed.

Lemma check_while_pass_lasts_witness :
  timer_check (running_timer 1000 1) (fresh_world (frozen 5400) (frozen 0))
  = (Ok (Some false), running_timer 1000 1,
     tick_clock (fresh_world (frozen 5400) (frozen 0))).
Proof.
  apply (check_while_pass_lasts _ _ 5000 1000); try reflexivity; cbn; lia.
Defined.

(** X9: a timer of the base class that is alive with the interval 0 is
    paused for good: [check()] answers False, reads no clock and changes
    nothing, so every later [check()] does the same. *)
Theorem paused_base_timer (t : Timer.obj) (w : World) (n : nat) :
  Timer._data t = None ->
  Timer.alive t = true ->
  Timer.interval t = Num 0 ->
  timer_check t w = (Ok (Some false), t, w) /\
  checks n t w = (Ok tt, t, w).
Proof.
  intros Hd Ha Hi.
  assert (forall w', timer_check t w' = (Ok (Some false), t, w')) as Hc.
  { intros w'. destruct t as [i sn mc tol st c tl sp ft d].
    cbn in Hd, Hi. unfold Timer.alive in Ha. cbn in Ha. subst.
    destruct st as [s|]; [|discriminate].
    unfold timer_check, timer_actualize. run_timer.
    destruct (s =? 0); [discriminate|]. reflexivity. }
  split; [apply Hc|].
  induction n as [|n IH]; [reflexivity|].
  cbn [checks]. erewrite bind_ok; [exact IH|apply Hc].
Qed.

Lemma paused_base_timer_witness :
  checks 3 (running_timer 0 1) (fresh_world (frozen 9000) (frozen 0))
  = (Ok tt, running_timer 0 1, fresh_world (frozen 9000) (frozen 0)).
Proof.
  exact (proj2 (paused_base_timer (running_timer 0 1)
                  (fresh_world (frozen 9000) (frozen 0)) 3 eq_refl eq_refl eq_refl)).
Defined.

(** X10: with snap and the interval 0, [start()] of a timer of the base class
    raises a division error: the first pass is armed, the clock was read,
    and no stage is set. *)
Theorem snap_start_zero_interval (t : Timer.obj) (w : World) :
  Timer._data t = None ->
  Timer._snap t = true ->
  Timer.interval t = Num 0 ->
  timer_start t w = (Raise ZeroDivisionError, Timer.set_first_time true t, tick_clock w).
Proof.
  intros Hd Hs Hi. unfold timer_start, Timer.start.
  rewrite (bind_ok _ _ _ _ _ _ _ (timer_actualize_plain t w Hd)).
  destruct t; cbn in Hs, Hi; subst. reflexivity.
Qed.

Lemma snap_start_zero_interval_witness :
  value_of (timer_start (Timer.mk (Num 0) true None 10 None 0 None false None None)
                        (fresh_world (frozen 5000) (frozen 0)))
  = Raise ZeroDivisionError.
Proof.
  rewrite (snap_start_zero_interval
             (Timer.mk (Num 0) true None 10 None 0 None false None None)
             (fresh_world (frozen 5000) (frozen 0)) eq_refl eq_refl eq_refl).
  reflexivity.
Defined.

Lemma start_same_settings (t : Timer.obj) (w : World) :
  same_settings t (object_of (timer_start t w)).
Proof.
  unfold timer_start, Timer.start. unfold bind at 1.
  destruct (timer_actualize t w) as [[r1 t1] w1] eqn:Hh.
  destruct (timer_actualize_frame _ _ _ _ _ Hh) as ([v ->] & _).
  destruct t as [i sn mc tol st c tl sp ft d].
  destruct r1 as [[]|e]; [|unfold same_settings; cbn; repeat split].
  run_timer.
  destruct sn; [destruct v as [z|]; [destruct (z =? 0)|]|];
    unfold same_settings; cbn; repeat split.
Qed.

(** The paused branch of [check()]. *)
Lemma check_paused (hook : M Timer.obj unit) (t : Timer.obj) (w : World) :
  Timer.alive t = true ->
  Timer.interval t = Num 0 ->
  Timer.check hook t w
  = (hook ;;
     i' <- get Timer.interval ;;
     if truthy i' then wait <- Timer.start hook ;; time_sleep wait ;; ret None
     else ret (Some false)) t w.
Proof.
  intros Ha Hi. destruct t as [i sn mc tol st c tl sp ft d].
  cbn in Hi. unfold Timer.alive in Ha. cbn in Ha. subst.
  destruct st as [s|]; [|discriminate].
  run_timer. destruct (s =? 0); [discriminate|]. reflexivity.
Qed.

Lemma check_counter_step (t t' : Timer.obj) (w w' : World) (r : option bool) :
  timer_check t w = (Ok r, t', w') ->
  Timer.counter t' = Timer.counter t + counted r /\
  Timer._max_count t' = Timer._max_count t /\
  Timer._stopped t' = Timer._stopped t.
Proof.
  intros Hc. unfold timer_check in Hc.
  destruct (Timer.alive t) eqn:Ha.
  2:{ rewrite (check_not_alive _ t w Ha) in Hc. injection Hc as <- <- <-.
      unfold Timer.counter. cbn. repeat split. lia. }
  destruct (Timer.interval t) as [I|] eqn:Hi.
  - destruct (Z.eq_dec I 0) as [->|HI].
    + (* paused *)
      rewrite (check_paused _ t w Ha Hi) in Hc. unfold bind at 1 in Hc.
      destruct (timer_actualize t w) as [[r1 t1] w1] eqn:Hh.
      destruct (timer_actualize_frame _ _ _ _ _ Hh) as ([v ->] & _).
      destruct r1 as [[]|e]; [|discriminate].
      unfold bind at 1 in Hc. unfold get at 1 in Hc.
      destruct (truthy (Timer.interval (Timer.set_interval v t))).
      * unfold bind at 1 in Hc.
        pose proof (start_same_settings (Timer.set_interval v t) w1) as Hs.
        unfold timer_start in Hs.
        destruct (Timer.start timer_actualize (Timer.set_interval v t) w1)
          as [[r2 t2] w2].
        destruct r2 as [wait|e]; [|discriminate].
        unfold bind, time_sleep, ret in Hc.
        destruct (wait <? 0); [discriminate|].
        injection Hc as <- <- <-.
        destruct Hs as (Hcnt & Hm & Hst & _). cbn in Hcnt, Hm, Hst.
        unfold Timer.counter. cbn. rewrite Hcnt, Hm, Hst.
        destruct t; cbn. repeat split. lia.
      * unfold ret in Hc. injection Hc as <- <- <-.
        destruct t; unfold Timer.counter; cbn. repeat split. lia.
    + (* running *)
      destruct (Timer._first_time t) as [[|]|] eqn:Hf.
      * rewrite (check_first_time _ t w Ha) in Hc;
          [|rewrite Hi; cbn; apply Z.eqb_neq in HI; rewrite HI; reflexivity|exact Hf].
        injection Hc as <- <- <-. destruct t; unfold Timer.counter; cbn. repeat split.
      * unfold Timer.alive in Ha.
        destruct (Timer._stage t) as [s|] eqn:Hs; [|discriminate].
        assert (s <> 0) as Hs0.
        { intros ->. discriminate Ha. }
        destruct (Z_lt_ge_dec (clock w (clock_reads w) - s) I) as [Hlt|Hge].
        { rewrite (check_no_tick _ t w s I Hs Hs0 Hf Hi HI Hlt) in Hc.
          injection Hc as <- <- <-. unfold Timer.counter. cbn. repeat split. lia. }
        rewrite (check_evaluation _ t w s I Hs Hs0 Hf Hi HI ltac:(lia)) in Hc.
        cbv zeta in Hc. set (t1 := Timer.set_timelag _ t) in Hc.
        unfold bind in Hc.
        destruct (timer_actualize t1 _) as [[r1 t2] w2] eqn:Hh.
        destruct (timer_actualize_frame _ _ _ _ _ Hh) as ([v ->] & _).
        destruct r1 as [[]|e]; [|discriminate].
        pose proof (after_hook_cases (Timer.set_interval v t1) w2) as H.
        cbn [Timer.interval Timer._interval Timer.set_interval] in H.
        destruct v as [z|].
        -- destruct (z =? 0).
           ++ rewrite H in Hc. injection Hc as <- <- <-.
              destruct t; unfold Timer.counter; cbn. repeat split. lia.
           ++ cbn [Timer._stage Timer.set_interval] in H.
              replace (Timer._stage t1) with (Some s) in H by (symmetry; exact Hs).
              rewrite H in Hc. injection Hc as <- <- <-.
              destruct t; unfold Timer.counter; cbn. repeat split.
        -- rewrite H in Hc. discriminate.
      * (* the attribute _first_time is absent *)
        destruct t as [i sn mc tol st c tl sp ft d].
        cbn in Hi, Hf. unfold Timer.alive in Ha. cbn in Ha. subst.
        destruct st as [s|]; [|discriminate].
        revert Hc. run_timer. destruct (s =? 0); [discriminate|].
        apply Z.eqb_neq in HI. rewrite HI. discriminate.
  - (* the interval is the object itself *)
    destruct t as [i sn mc tol st c tl sp ft d].
    cbn in Hi. unfold Timer.alive in Ha. cbn in Ha. subst.
    destruct st as [s|]; [|discriminate].
    revert Hc. run_timer. destruct (s =? 0); [discriminate|].
    destruct ft as [[|]|].
    + intros [= <- <- <-]. unfold Timer.counter. cbn. repeat split.
    + discriminate.
    + discriminate.
Qed.

(** X1: [check()] that returns has added one to the counter when it reports
    a tick and has left the counter alone otherwise; [max_count] and the
    stop request are never touched. *)
Theorem check_counts_ticks (t t' : Timer.obj) (w w' : World) (r : option bool) :
  timer_check t w = (Ok r, t', w') ->
  Timer.counter t' = Timer.counter t + counted r /\
  Timer._max_count t' = Timer._max_count t /\
  Timer._stopped t' = Timer._stopped t.
Proof.
  intros Hc. destruct (check_counter_step t t' w w' r Hc) as (Hcnt & Hmax & Hst).
  split; [exact Hcnt|]. split; [exact Hmax|exact Hst].
Qed.

Lemma check_counts_ticks_witness :
  Timer.counter (object_of (timer_check (running_timer 1000 1)
                              (fresh_world (frozen 6000) (frozen 0))))
  = 1 + counted (Some true).
Proof.
  exact (proj1 (check_counts_ticks (running_timer 1000 1) _
                  (fresh_world (frozen 6000) (frozen 0)) _ (Some true) eq_refl)).
Defined.

(** X4: with a maximum from 1 to 256, a round of the loop that drives a timer
    ([run_check()] answering true, then [check()]) keeps the counter within
    the maximum: [run_check()] answers true only below the maximum, and the
    [check()] after it adds at most one. *)
Theorem counter_stays_within_max_count (t t1 t2 : Timer.obj) (w w1 w2 : World)
        (n : Z) (r : option bool) :
  Timer._max_count t = Some n -> 1 <= n <= 256 ->
  Timer.counter t <= n ->
  Timer.run_check t w = (Ok true, t1, w1) ->
  timer_check t1 w1 = (Ok r, t2, w2) ->
  Timer.counter t < n /\ Timer.counter t2 <= n /\ Timer._max_count t2 = Some n.
Proof.
  intros Hm Hn Hc Hrun Hcheck.
  destruct (Timer._stopped t) eqn:Hs.
  { rewrite (run_check_stopped t w Hs) in Hrun. discriminate. }
  rewrite (run_check_running t w Hs) in Hrun. injection Hrun as Hb <- <-.
  apply andb_true_iff in Hb as [Ha Hb].
  rewrite Hm, py_is_small in Hb by lia.
  apply negb_true_iff, Z.eqb_neq in Hb.
  destruct (check_counter_step _ _ _ _ _ Hcheck) as (Hcnt & Hmax & _).
  split; [lia|]. split; [|congruence].
  rewrite Hcnt. destruct r as [[|]|]; cbn; lia.
Qed.

Lemma counter_stays_within_max_count_witness :
  let t := Timer.mk (Num 1000) false (Some 2) 10 (Some 5000) 1 None false (Some false) None in
  1 < 2 /\
  Timer.counter (object_of (timer_check t (fresh_world (frozen 6000) (frozen 0)))) <= 2.
Proof.
  intros t.
  destruct (counter_stays_within_max_count t t _
              (fresh_world (frozen 6000) (frozen 0)) (fresh_world (frozen 6000) (frozen 0))
              _ 2 (Some true) eq_refl ltac:(lia) ltac:(cbn; lia) eq_refl eq_refl)
    as (H1 & H2 & _).
  split; [exact H1|exact H2].
Defined.

(** X5: [stop()] takes effect at the next [run_check()], whatever the state
    of the timer: [run_check()] answers false and has reset the timer,
    which is then not alive with the counter 0 and the stop request
    cleared; the interval and [timelag] are kept, and a [check()] after it
    returns None. *)
Theorem stop_takes_effect_at_run_check (t : Timer.obj) (w : World) :
  let r := (Timer.stop ;; Timer.run_check) t w in
  value_of r = Ok false /\
  world_of r = w /\
  Timer.alive (object_of r) = false /\
  Timer.counter (object_of r) = 0 /\
  Timer._stopped (object_of r) = false /\
  Timer.interval (object_of r) = Timer.interval t /\
  Timer.timelag (object_of r) = Timer.timelag t /\
  timer_check (object_of r) w = (Ok None, object_of r, w).
Proof.
  destruct t as [i sn mc tol st c tl sp ft d]. cbn.
  repeat split.
Qed.




(** * Further properties of the daytime table *)

Lemma scan_last_before (now : Z) (data : list (Z * Z)) (held : interval_value) :
  scan now data held
  = match last_before now data with
    | Some p => Num (snd p)
    | None => held
    end.
Proof.
  unfold last_before.
  induction data as [|x data IH] using rev_ind; [reflexivity|].
  rewrite scan_last, rev_app_distr. cbn [rev app find].
  destruct (fst x <? now); [reflexivity|exact IH].
Qed.

(** X11: at or past the last threshold of its table, the hook of a daytime
    timer sets the interval of the last entry whose threshold is strictly
    before the time of day; when there is none (every threshold is the
    time of day itself) it leaves the interval as it is. *)
Theorem actualize_from_last_threshold (t : Timer.obj) (w : World)
        (data rl : list (Z * Z)) (last : Z * Z) :
  Timer._data t = Some data ->
  rev data = last :: rl ->
  fst last <= daytime w (daytime_reads w) ->
  DaytimeTimer.actualize t w
  = (Ok tt,
     Timer.set_interval
       (match last_before (daytime w (daytime_reads w)) data with
        | Some p => Num (snd p)
        | None => Timer.interval t
        end) t,
     tick_daytime w).
Proof.
  intros Hd Hrev Hle. rewrite (actualize_resolve t w data Hd).
  unfold resolve. rewrite Hrev.
  destruct data as [|first rest]; [discriminate Hrev|].
  replace (daytime w (daytime_reads w) <? fst last) with false
    by (symmetry; apply Z.ltb_ge; lia).
  rewrite scan_last_before. reflexivity.
Qed.

Lemma actualize_from_last_threshold_witness :
  let t := Timer.set_data [(hm 6 0, 60); (hm 12 0, 300)]
             (Timer.mk Self false None 10 None 0 None false None None) in
  Timer.interval (object_of (DaytimeTimer.actualize t
                               (fresh_world (frozen 0) (frozen (hm 12 0)))))
  = Num 60.
Proof.
  intros t.
  rewrite (actualize_from_last_threshold t (fresh_world (frozen 0) (frozen (hm 12 0)))
             [(hm 6 0, 60); (hm 12 0, 300)] [(hm 6 0, 60)] (hm 12 0, 300)
             eq_refl eq_refl ltac:(vm_compute; discriminate)).
  reflexivity.
Defined.



(** * Further properties of commands *)

Lemma runtime_alive (t : Timer.obj) (w : World) (s : Z) :
  Timer._stage t = Some s -> s <> 0 ->
  Timer.runtime t w = (Ok (Some (clock w (clock_reads w) - s)), t, tick_clock w).
Proof.
  intros Hs Hs0. destruct t as [i sn mc tol st c tl sp ft d]. cbn in Hs. subst.
  run_timer. apply Z.eqb_neq in Hs0. rewrite Hs0. reflexivity.
Qed.

Lemma check_delay_value (c : BaseCmd.obj) (e : BaseCmd.ext) (r : Z) (w : World) :
  BaseCmd._ext c = Some e ->
  Cmd._check_delay (Some r) c w = (Ok (Z.max 0 (BaseCmd._delay e - r)), c, w).
Proof.
  intros He. unfold Cmd._check_delay.
  rewrite (bind_ok _ _ _ _ _ _ _ (attr_value BaseCmd._delay c e w He)).
  unfold bind, operand, ret. do 3 f_equal.
  destruct (Z.gtb_spec (BaseCmd._delay e - r) 0); lia.
Qed.

Lemma check_delay_none (c : BaseCmd.obj) (e : BaseCmd.ext) (w : World) :
  BaseCmd._ext c = Some e ->
  Cmd._check_delay None c w = (Raise TypeError, c, w).
Proof.
  intros He. unfold Cmd._check_delay.
  rewrite (bind_ok _ _ _ _ _ _ _ (attr_value BaseCmd._delay c e w He)).
  reflexivity.
Qed.

(** X17: the time a command waits before it runs: its [wait], and what is
    left of its [delay] at the running time of the pass, which the timer
    reads off the clock. *)
Theorem preexec_waits_for_delay (c : BaseCmd.obj) (e : BaseCmd.ext)
        (sequence : Sequence.obj) (w : World) (s : Z) :
  BaseCmd._ext c = Some e ->
  Timer._stage (Sequence.timer sequence) = Some s -> s <> 0 ->
  Cmd.preexec sequence c w
  = (Ok (BaseCmd._wait e
         + Z.max 0 (BaseCmd._delay e - (clock w (clock_reads w) - s))),
     c, tick_clock w).
Proof.
  intros He Hs Hs0. unfold Cmd.preexec.
  rewrite (bind_ok _ _ _ _ _ _ _ (attr_value BaseCmd._wait c e w He)).
  erewrite bind_ok.
  2:{ unfold observe. rewrite (runtime_alive _ w s Hs Hs0). reflexivity. }
  erewrite bind_ok; [|apply check_delay_value; exact He]. reflexivity.
Qed.

Lemma preexec_waits_for_delay_witness :
  let e := BaseCmd.mkExt 200 0 700 1 [] in
  let c := BaseCmd.mk (noop "job") "job" [] [] false 0 (Some e) in
  value_of (Cmd.preexec (running_sequence 1000 1) c
              (fresh_world (frozen 5400) (frozen 0)))
  = Ok 500.
Proof.
  intros e c.
  rewrite (preexec_waits_for_delay c e (running_sequence 1000 1)
             (fresh_world (frozen 5400) (frozen 0)) 5000 eq_refl eq_refl ltac:(lia)).
  reflexivity.
Defined.

(** X18: when the timer of the sequence is not alive there is no running time
    to take the delay from, and [preexec] raises a type error; the clock is
    not read. *)
Theorem preexec_timer_not_alive (c : BaseCmd.obj) (e : BaseCmd.ext)
        (sequence : Sequence.obj) (w : World) :
  BaseCmd._ext c = Some e ->
  Timer.alive (Sequence.timer sequence) = false ->
  Cmd.preexec sequence c w = (Raise TypeError, c, w).
Proof.
  intros He Ha. unfold Cmd.preexec.
  rewrite (bind_ok _ _ _ _ _ _ _ (attr_value BaseCmd._wait c e w He)).
  erewrite bind_ok.
  2:{ unfold observe, Timer.runtime, bind, get. rewrite Ha. reflexivity. }
  erewrite bind_raise; [reflexivity|]. apply (check_delay_none c e w He).
Qed.

Lemma preexec_timer_not_alive_witness :
  let e := BaseCmd.mkExt 200 0 700 1 [] in
  let c := BaseCmd.mk (noop "job") "job" [] [] false 0 (Some e) in
  let s := Sequence.mk (Timer.mk (Num 1000) false None 10 None 0 None false None None)
                       Sequence.default_cmds None in
  value_of (Cmd.preexec s c (fresh_world (frozen 5400) (frozen 0))) = Raise TypeError.
Proof.
  intros e c s.
  rewrite (preexec_timer_not_alive c e s (fresh_world (frozen 5400) (frozen 0))
             eq_refl eq_refl).
  reflexivity.
Defined.

Lemma check_times_windows (c : BaseCmd.obj) (e : BaseCmd.ext) (I : Z) (w : World) :
  BaseCmd._ext c = Some e ->
  BaseCmd._times e <> [] ->
  Cmd._check_times (Num I) c w
  = (Ok (existsb (fun t => (daytime w (daytime_reads w) >=? t)
                           && (daytime w (daytime_reads w) - t <? I))
                 (BaseCmd._times e)),
     c, tick_daytime w).
Proof.
  intros He Hne. unfold Cmd._check_times.
  rewrite (bind_ok _ _ _ _ _ _ _ (attr_value BaseCmd._times c e w He)).
  destruct (BaseCmd._times e) as [|t times] eqn:Ht; [contradiction|].
  erewrite bind_ok; [|reflexivity].
  erewrite bind_ok; [|apply window_tests].
  rewrite any_map. destruct (existsb _ _); reflexivity.
Qed.

(** X15: outside every configured window the gate of an extended command
    answers False after one reading of the time of day, and does not get
    to the pass counter: it answers False for every [nthtime], 0
    included. *)
Theorem gate_outside_windows (c : BaseCmd.obj) (e : BaseCmd.ext)
        (sequence : Sequence.obj) (w : World) (I : Z) :
  BaseCmd._ext c = Some e ->
  Timer.interval (Sequence.timer sequence) = Num I ->
  BaseCmd._times e <> [] ->
  (forall t, In t (BaseCmd._times e) ->
             daytime w (daytime_reads w) < t \/ I <= daytime w (daytime_reads w) - t) ->
  Cmd.check sequence c w = (Ok false, c, tick_daytime w).
Proof.
  intros He Hi Hne Hout. unfold Cmd.check. rewrite Hi.
  rewrite (bind_ok _ _ _ _ _ _ _ (check_times_windows c e I w He Hne)).
  replace (existsb _ _) with false; [reflexivity|].
  symmetry. apply not_true_is_false. intros Hex.
  apply existsb_exists in Hex as (t & Hin & Ht).
  apply andb_true_iff in Ht as [Hge Hlt].
  apply Z.geb_le in Hge. apply Z.ltb_lt in Hlt.
  destruct (Hout t Hin); lia.
Qed.

Lemma gate_outside_windows_witness :
  let e := BaseCmd.mkExt 0 0 0 0 [hm 12 0] in
  let c := BaseCmd.mk (noop "job") "job" [] [] false 0 (Some e) in
  value_of (Cmd.check (running_sequence (seconds 60) 4) c
              (fresh_world (frozen 0) (frozen (hm 12 5))))
  = Ok false.
Proof.
  intros e c.
  rewrite (gate_outside_windows c e (running_sequence (seconds 60) 4)
             (fresh_world (frozen 0) (frozen (hm 12 5))) (seconds 60)
             eq_refl eq_refl ltac:(discriminate)).
  - reflexivity.
  - intros t [<-|[]]. right. vm_compute. discriminate.
Defined.

(** X16: with [nthtime] 0 the gate raises a division error on every pass that
    gets through the windows: always when no time is configured, and
    inside a window otherwise. *)
Theorem gate_nthtime_zero (c : BaseCmd.obj) (e : BaseCmd.ext)
        (sequence : Sequence.obj) (w : World) (I : Z) :
  BaseCmd._ext c = Some e ->
  Timer.interval (Sequence.timer sequence) = Num I ->
  BaseCmd._nthtime e = 0 ->
  BaseCmd._times e = [] \/
  (exists t, In t (BaseCmd._times e) /\
             t <= daytime w (daytime_reads w) /\ daytime w (daytime_reads w) - t < I) ->
  value_of (Cmd.check sequence c w) = Raise ZeroDivisionError.
Proof.
  intros He Hi Hn Hin. unfold Cmd.check. rewrite Hi.
  destruct (check_times_value c e I w He) as [Hv Ho].
  unfold bind.
  destruct (Cmd._check_times (Num I) c w) as [[r c'] w'].
  cbn in Hv, Ho. subst r c'.
  replace (match BaseCmd._times e with [] => true | _ => _ end) with true.
  - rewrite (check_nthtime_zero c e _ w' He Hn). reflexivity.
  - symmetry. destruct Hin as [->|(t & Hin & Hge & Hlt)]; [reflexivity|].
    destruct (BaseCmd._times e) as [|t0 times]; [reflexivity|].
    apply existsb_exists. exists t. split; [exact Hin|].
    apply andb_true_iff. split; [apply Z.geb_le; lia|apply Z.ltb_lt; exact Hlt].
Qed.

Lemma gate_nthtime_zero_witness :
  let e := BaseCmd.mkExt 0 0 0 0 [] in
  let c := BaseCmd.mk (noop "job") "job" [] [] false 0 (Some e) in
  value_of (Cmd.check (running_sequence (seconds 60) 4) c
              (fresh_world (frozen 0) (frozen (hm 12 5))))
  = Raise ZeroDivisionError.
Proof.
  intros e c.
  apply (gate_nthtime_zero c e (running_sequence (seconds 60) 4)
           (fresh_world (frozen 0) (frozen (hm 12 5))) (seconds 60)
           eq_refl eq_refl eq_refl).
  left. reflexivity.
Defined.

(** X19: a call of the wrapper that goes through: the counter is one more,
    the time of [preexec] is slept, the run is logged, the callable runs
    on the arguments handed in, the end is logged, the time of [postexec]
    is slept, and the value of the callable is returned. *)
Theorem wrapper_runs_callable
        (pre post : Sequence.obj -> M BaseCmd.obj Z) (sequence : Sequence.obj)
        (args : list Z) (kwargs : list (string * Z))
        (c c1 c2 : BaseCmd.obj) (w w1 w2 w3 : World) (p q v : Z) :
  pre sequence (BaseCmd.set_counter (BaseCmd._counter c + 1) c) w = (Ok p, c1, w1) ->
  0 <= p ->
  callable_body (BaseCmd._cmd c1) args kwargs
    (add_logged (INFO ("RUN " ++ callable_name (BaseCmd._cmd c1) ++ ".")%string)
                (add_slept p w1))
  = (Ok v, w2) ->
  post sequence c1
    (add_logged (INFO ("DONE " ++ callable_name (BaseCmd._cmd c1) ++ ".")%string) w2)
  = (Ok q, c2, w3) ->
  0 <= q ->
  BaseCmd.__call__ pre post sequence args kwargs c w = (Ok v, c2, add_slept q w3).
Proof.
  intros Hpre Hp Hcall Hpost Hq. unfold BaseCmd.__call__.
  erewrite bind_ok; [|reflexivity].
  erewrite bind_ok; [|reflexivity].
  erewrite bind_ok; [|exact Hpre].
  erewrite bind_ok; [|unfold time_sleep; apply Z.ltb_ge in Hp; rewrite Hp; reflexivity].
  erewrite bind_ok; [|reflexivity].
  erewrite bind_ok; [|reflexivity].
  erewrite bind_ok; [|unfold call; rewrite Hcall; reflexivity].
  erewrite bind_ok; [|reflexivity].
  erewrite bind_ok; [|exact Hpost].
  erewrite bind_ok; [|unfold time_sleep; apply Z.ltb_ge in Hq; rewrite Hq; reflexivity].
  reflexivity.
Qed.

Lemma wrapper_runs_callable_witness :
  let c := BaseCmd.mk (noop "job") "job" [] [] false 0 None in
  let w := fresh_world (frozen 5000) (frozen 0) in
  BaseCmd.__call__ BaseCmd.preexec BaseCmd.postexec (running_sequence (seconds 1) 1) [] [] c w
  = (Ok 0, BaseCmd.set_counter 1 c,
     add_slept 0 (add_logged (INFO "DONE job.")
                    (add_logged (INFO "RUN job.") (add_slept 0 w)))).
Proof.
  intros c w.
  apply (wrapper_runs_callable BaseCmd.preexec BaseCmd.postexec
           (running_sequence (seconds 1) 1) [] [] c (BaseCmd.set_counter 1 c)
           (BaseCmd.set_counter 1 c) w w
           (add_logged (INFO "RUN job.") (add_slept 0 w))
           (add_logged (INFO "DONE job.") (add_logged (INFO "RUN job.") (add_slept 0 w)))
           0 0 0).
  - reflexivity.
  - lia.
  - reflexivity.
  - reflexivity.
  - lia.
Defined.

(** * Further properties of sequences *)

Lemma add_cmd_lookup (cmd : cmd_ref) (s : Sequence.obj) (w : World) (l : list cmd_ref) :
  lists w !! Sequence.cmds s = Some l ->
  lists (world_of (Sequence.add_cmd cmd s w)) !! Sequence.cmds s = Some (l ++ [cmd]).
Proof.
  intros Hl. unfold Sequence.add_cmd, world_of. cbn.
  rewrite lookup_alter_eq, Hl. reflexivity.
Qed.

(** X20: commands added one after the other come at the end of the command
    list of the sequence in the order they were added; the sequence object
    and every other list object stay as they were. *)
Theorem add_cmds_appends_in_order (cs : list cmd_ref) (s : Sequence.obj) (w : World)
        (l : list cmd_ref) :
  lists w !! Sequence.cmds s = Some l ->
  let r := add_cmds cs s w in
  value_of r = Ok tt /\
  object_of r = s /\
  value_of (Sequence.read_cmds s (world_of r)) = Ok (l ++ cs) /\
  (forall other : loc, other <> Sequence.cmds s ->
                       lists (world_of r) !! other = lists w !! other).
Proof.
  revert w l. induction cs as [|c cs IH]; intros w l Hl r.
  - unfold r. cbn. repeat split.
    unfold Sequence.read_cmds, value_of. cbn. rewrite Hl, app_nil_r. reflexivity.
  - unfold r, add_cmds. cbn [for_each].
    erewrite bind_ok; [|reflexivity].
    pose proof (add_cmd_lookup c s w l Hl) as Hl1.
    unfold Sequence.add_cmd, world_of in Hl1. cbn [snd] in Hl1.
    destruct (IH _ _ Hl1) as (Hv & Ho & Hr & Hother).
    split; [exact Hv|]. split; [exact Ho|]. split.
    + unfold add_cmds in Hr. rewrite Hr. rewrite <- app_assoc. reflexivity.
    + intros other Hne. unfold add_cmds in Hother. rewrite (Hother other Hne).
      cbn. apply lookup_alter_ne. congruence.
Qed.

Lemma add_cmds_appends_in_order_witness :
  value_of (Sequence.read_cmds (running_sequence 1000 1)
              (world_of (add_cmds [4%nat; 2%nat; 7%nat] (running_sequence 1000 1)
                           (fresh_world (frozen 0) (frozen 0)))))
  = Ok [4%nat; 2%nat; 7%nat].
Proof.
  exact (proj1 (proj2 (proj2
           (add_cmds_appends_in_order [4%nat; 2%nat; 7%nat] (running_sequence 1000 1)
              (fresh_world (frozen 0) (frozen 0)) [] eq_refl)))).
Defined.

(** X22: a stop request made while the sequence is idle stays pending: when
    [go()] is entered afterwards and gets to its loop, the first
    [run_check()] answers false and has reset the timer, so no pass is
    run. *)
Theorem pending_stop_ends_next_run (fuel : nat) (s s' : Sequence.obj) (w w' : World)
        (b : bool) :
  (Sequence.stop fuel false ;; Sequence.go_enter ;;
   Sequence.on_timer Timer.run_check) s w = (Ok b, s', w') ->
  b = false /\
  Timer.alive (Sequence.timer s') = false /\
  Timer.counter (Sequence.timer s') = 0.
Proof.
  unfold Sequence.stop, Sequence.go_enter.
  erewrite bind_ok; [|reflexivity].
  set (s1 := Sequence.set_timer _ s).
  unfold bind at 1. unfold bind at 1. unfold Sequence.on_timer at 1.
  pose proof (start_same_settings (Sequence.timer s1) w) as Hs.
  destruct (timer_start (Sequence.timer s1) w) as [[r t1] w1].
  destruct Hs as (_ & _ & Hst & _). cbn in Hst.
  destruct r as [wait|e]; [|discriminate].
  unfold bind at 1. unfold time_sleep at 1.
  destruct (wait <? 0); [discriminate|].
  unfold bind, modify, Sequence.on_timer. cbn.
  rewrite Hst. destruct t1 as [i sn mc tol st c tl sp ft d]. cbn.
  intros [= <- <- <-]. repeat split.
Qed.

Lemma pending_stop_ends_next_run_witness :
  let s := Sequence.mk (Timer.mk (Num 1000) false None 10 None 0 None false None None)
                       Sequence.default_cmds None in
  Timer.alive
    (Sequence.timer
       (object_of ((Sequence.stop 0 false ;; Sequence.go_enter ;;
                    Sequence.on_timer Timer.run_check)
                     s (fresh_world (frozen 5000) (frozen 0)))))
  = false.
Proof.
  intros s.
  exact (proj1 (proj2 (pending_stop_ends_next_run 0 s _
                         (fresh_world (frozen 5000) (frozen 0)) _ false eq_refl))).
Defined.




(** X13: a paused daytime timer resumes when the hook finds an interval that
    is not zero: [check()] calls the hook, starts the timer anew (the hook
    runs once more, and without snap the stage is the time of the call and
    nothing is waited for), and returns None, not a tick; the first pass is
    armed, so the tick comes with the next [check()]. *)
Theorem paused_daytime_timer_resumes (t : Timer.obj) (w : World)
        (data : list (Z * Z)) (v1 v2 : interval_value) :
  Timer._data t = Some data ->
  Timer.alive t = true ->
  Timer.interval t = Num 0 ->
  Timer._snap t = false ->
  resolve data (daytime w (daytime_reads w)) (Num 0) = Ok v1 ->
  truthy v1 = true ->
  resolve data (daytime w (S (daytime_reads w))) v1 = Ok v2 ->
  timer_check t w
  = (Ok None,
     Timer.set_stage (Some (clock w (clock_reads w)))
       (Timer.set_first_time true (Timer.set_interval v2 t)),
     add_slept 0 (tick_clock (tick_daytime (tick_daytime w)))).
Proof.
  intros Hd Ha Hi Hs H1 Ht H2. unfold timer_check.
  rewrite (check_paused _ t w Ha Hi).
  assert (timer_actualize t w = (Ok tt, Timer.set_interval v1 t, tick_daytime w)) as Hh1.
  { unfold timer_actualize. rewrite Hd.
    rewrite (actualize_resolve t w data Hd).
    replace (Timer._interval t) with (Num 0) by (symmetry; exact Hi).
    rewrite H1. reflexivity. }
  rewrite (bind_ok _ _ _ _ _ _ _ Hh1).
  erewrite bind_ok; [|reflexivity].
  cbn [Timer.interval Timer._interval Timer.set_interval]. rewrite Ht.
  assert (timer_actualize (Timer.set_interval v1 t) (tick_daytime w)
          = (Ok tt, Timer.set_interval v2 t, tick_daytime (tick_daytime w))) as Hh2.
  { unfold timer_actualize. cbn [Timer._data Timer.set_interval]. rewrite Hd.
    rewrite (actualize_resolve _ _ data); [|exact Hd].
    cbn [Timer._interval Timer.set_interval daytime daytime_reads tick_daytime].
    rewrite H2. reflexivity. }
  erewrite bind_ok.
  2:{ apply (start_no_snap _ _ _ _ _ Hh2). destruct t; exact Hs. }
  erewrite bind_ok; [|reflexivity]. reflexivity.
Qed.

Lemma paused_daytime_timer_resumes_witness :
  let t := Timer.mk (Num 0) false None 10 (Some 5000) 3 None false (Some false)
                    (Some [(hm 6 0, 0); (hm 12 0, 60)]) in
  value_of (timer_check t (fresh_world (frozen 9000) (frozen (hm 13 0)))) = Ok None.
Proof.
  intros t.
  rewrite (paused_daytime_timer_resumes t (fresh_world (frozen 9000) (frozen (hm 13 0)))
             [(hm 6 0, 0); (hm 12 0, 60)] (Num 60) (Num 60)
             eq_refl eq_refl eq_refl eq_refl eq_refl eq_refl eq_refl).
  reflexivity.
Defined.

(** * Ticks, pauses and command lists *)

(** X3: after its first tick a running timer of the base class that is alive
    reports a tick exactly when the clock shows that the interval has run
    down since the stage; it never raises and never returns None. *)
Theorem tick_iff_interval_elapsed (t : Timer.obj) (w : World) (s I : Z) :
  Timer._data t = None ->
  Timer._first_time t = Some false ->
  Timer.interval t = Num I -> I <> 0 ->
  Timer._stage t = Some s -> s <> 0 ->
  value_of (timer_check t w) = Ok (Some (I <=? clock w (clock_reads w) - s)).
Proof.
  intros Hd Hf Hi HI Hs Hs0.
  destruct (Z_lt_ge_dec (clock w (clock_reads w) - s) I) as [Hlt|Hge].
  - unfold timer_check. rewrite (check_no_tick _ t w s I Hs Hs0 Hf Hi HI Hlt).
    cbn. do 2 f_equal. symmetry. apply Z.leb_gt. exact Hlt.
  - unfold timer_check.
    rewrite (check_evaluation _ t w s I Hs Hs0 Hf Hi HI ltac:(lia)). cbv zeta.
    set (t1 := Timer.set_timelag _ t). set (w1 := tick_clock _).
    rewrite (bind_ok _ _ _ _ _ _ _ (timer_actualize_plain t1 w1 Hd)).
    pose proof (after_hook_cases t1 w1) as H.
    replace (Timer.interval t1) with (Num I) in H by (symmetry; exact Hi).
    replace (Timer._stage t1) with (Some s) in H by (symmetry; exact Hs).
    apply Z.eqb_neq in HI. rewrite HI in H. rewrite H.
    cbn. do 2 f_equal. symmetry. apply Z.leb_le. lia.
Qed.

Lemma tick_iff_interval_elapsed_witness :
  value_of (timer_check (running_timer 1000 1) (fresh_world (frozen 5999) (frozen 0)))
  = Ok (Some false) /\
  value_of (timer_check (running_timer 1000 1) (fresh_world (frozen 6000) (frozen 0)))
  = Ok (Some true).
Proof.
  split.
  - exact (tick_iff_interval_elapsed (running_timer 1000 1)
             (fresh_world (frozen 5999) (frozen 0)) 5000 1000
             eq_refl eq_refl eq_refl ltac:(lia) eq_refl ltac:(lia)).
  - exact (tick_iff_interval_elapsed (running_timer 1000 1)
             (fresh_world (frozen 6000) (frozen 0)) 5000 1000
             eq_refl eq_refl eq_refl ltac:(lia) eq_refl ltac:(lia)).
Defined.

(** X14: a daytime timer pauses when, at the end of a pass, the hook finds
    the interval 0: [check()] answers False, counts nothing and keeps the
    stage; [timelag] has been brought up to date before. *)
Theorem daytime_timer_pauses (t : Timer.obj) (w : World) (data : list (Z * Z))
        (s I : Z) :
  Timer._data t = Some data ->
  Timer._stage t = Some s -> s <> 0 ->
  Timer._first_time t = Some false ->
  Timer.interval t = Num I -> I <> 0 ->
  I <= clock w (clock_reads w) - s ->
  resolve data (daytime w (daytime_reads w)) (Num I) = Ok (Num 0) ->
  let lag := clock w (S (clock_reads w)) - s - I in
  timer_check t w
  = (Ok (Some false),
     Timer.set_interval (Num 0)
       (Timer.set_timelag
          (if lag <=? Timer._latency_tolerance t then None else Some lag) t),
     tick_daytime (tick_clock (tick_clock w))).
Proof.
  intros Hd Hs Hs0 Hf Hi HI Hge Hr lag. unfold timer_check.
  rewrite (check_evaluation _ t w s I Hs Hs0 Hf Hi HI Hge). cbv zeta. fold lag.
  set (t1 := Timer.set_timelag _ t). set (w1 := tick_clock _).
  assert (timer_actualize t1 w1 = (Ok tt, Timer.set_interval (Num 0) t1, tick_daytime w1))
    as Hh.
  { unfold timer_actualize. replace (Timer._data t1) with (Some data) by (symmetry; exact Hd).
    rewrite (actualize_resolve t1 w1 data Hd).
    replace (Timer._interval t1) with (Num I) by (symmetry; exact Hi).
    replace (daytime w1 (daytime_reads w1)) with (daytime w (daytime_reads w))
      by reflexivity.
    rewrite Hr. reflexivity. }
  rewrite (bind_ok _ _ _ _ _ _ _ Hh).
  pose proof (after_hook_cases (Timer.set_interval (Num 0) t1) (tick_daytime w1)) as H.
  cbn [Timer.interval Timer._interval Timer.set_interval] in H.
  exact H.
Qed.

Lemma daytime_timer_pauses_witness :
  let t := Timer.mk (Num 60) false None 10 (Some 5000) 3 None false (Some false)
                    (Some [(hm 6 0, 60); (hm 12 0, 0)]) in
  value_of (timer_check t (fresh_world (frozen 9000) (frozen (hm 13 0))))
  = Ok (Some false).
Proof.
  intros t.
  rewrite (daytime_timer_pauses t (fresh_world (frozen 9000) (frozen (hm 13 0)))
             [(hm 6 0, 60); (hm 12 0, 0)] 5000 60
             eq_refl eq_refl ltac:(lia) eq_refl eq_refl ltac:(lia)
             ltac:(vm_compute; discriminate) eq_refl).
  reflexivity.
Defined.


